(** * A batch ETL pipeline: extract, transform, load

    Shallow embedding of [etl_pipeline.py].  The script reads a CSV file of
    sales transactions into a pandas frame, drops incomplete rows and rows
    whose amount is not strictly positive, coerces two columns, sums the
    amounts per product, stamps the result with the current time and
    replaces one SQLite table with it.

    Frames are lists of rows.  The finite numbers of an [int64] or
    [float64] amount column are rationals and are written in [Q]; how
    pandas adds them up, with the wrap-around of [int64] or the rounding of
    [float64], is a parameter of the development ([amount_sum]), as are
    the parsers of [to_datetime] and [to_numeric].  Infinite amounts are
    outside this development.  Python statements that print, read the
    clock, touch the file system or the database are written in a
    state-and-exception monad [Py] over a [World]; the column operations of
    pandas are pure functions returning an [outcome], because they can
    raise. *)

From Stdlib Require Import ZArith QArith String Ascii.
From stdpp Require Import base option list sorting gmap strings.

Close Scope Q_scope.
Open Scope string_scope.

(** ** Cells, rows and frames *)

(** A cell of the [amount] column as [read_csv] or a caller can deliver it: a
    missing value (NaN / None), a number, or a string (the column has dtype
    [object] as soon as one field is not a number). *)
Inductive amount_cell : Type :=
  | ANull
  | ANum (x : Q)
  | AStr (s : string).

(** One row of the input frame, with the five columns of the CSV header.
    [None] is a missing value. *)
Record RawTransaction : Type := mkRaw {
  transaction_id : option Z;
  product_id : option string;
  date : option string;
  amount : amount_cell;
  category : option string
}.

(** One row of the frame after lines 52-53: [date] is a [datetime64] column
    ([None] is NaT) and [amount] a numeric column ([None] is NaN). *)
Record CleanTransaction : Type := mkClean {
  c_transaction_id : option Z;
  c_product_id : option string;
  c_date : option Z;
  c_amount : option Q;
  c_category : option string
}.

(** One row of the aggregated frame returned by [transform_data]. *)
Record ProductRevenueSummary : Type := mkSummary {
  s_product_id : string;
  total_revenue_usd : Q;
  processed_at : Z
}.

(** ** Exceptions and printed lines *)

(** The Python exceptions the script can meet.  [OtherError] stands for every
    other subclass of [Exception] (pandas parser errors, [sqlite3] errors). *)
Inductive exn : Type :=
  | FileNotFoundError (path : string)
  | TypeError (msg : string)
  | ValueError (msg : string)
  | OtherError (msg : string).

Inductive outcome (A : Type) : Type :=
  | Return (a : A)
  | Raise (e : exn).
Arguments Return {A} a.
Arguments Raise {A} e.

(** The lines the script prints, one constructor per [print] call, with the
    values interpolated by its f-string. *)
Inductive message : Type :=
  | MsgGenerating (path : string)
  | MsgGenerated
  | MsgExtract (path : string)
  | MsgRead (n : nat)
  | MsgNotFound (path : string)
  | MsgExtractionError (e : exn)
  | MsgTransform
  | MsgDroppedMissing (n : nat)
  | MsgDroppedNonPositive (n : nat)
  | MsgTransformed (n : nat)
  | MsgLoad (path : string)
  | MsgLoaded (n : nat) (table : string)
  | MsgVerification (rows : list (string * Q))
  | MsgLoadError (e : exn)
  | MsgComplete
  | MsgFatal (e : exn).

(** ** The world outside the interpreter *)

(** What a path of the file system holds, as far as [read_csv] can tell: a
    file it parses into rows, or a file on which it raises (an empty file,
    a file that is not delimited text, the file of a database). *)
Inductive csv_source : Type :=
  | Parsed (rows : list RawTransaction)
  | Malformed (why : string).

(** Where [to_sql(if_exists='replace')] fails.  It runs DROP TABLE, CREATE
    TABLE and INSERT, and the first two are committed as they are run. *)
Inductive write_stage : Type :=
  | AtDrop
  | AtCreate
  | AtInsert.

(** [fs] maps a path to the file there; [db] maps a database file and a table
    name to the rows of the table; [open_conns] counts the connections that
    were opened and not yet closed; [stdout] is what was printed, oldest
    first; [clock] is what [datetime.now()] returns next.  A file has one
    path and a table one name here: two spellings of the path of one file,
    or two names of one table that differ in letter case, are not told
    apart from two files or two tables.

    The other fields say how the environment answers in this world.
    [connect_fault], [write_fault] and [read_fault] say whether opening a
    connection, writing a table or reading one back fails, and with which
    message; when the write fails, [write_fault_stage] says at which of its
    three statements it fails.  [csv_write_fault] says whether writing
    a CSV file fails.  [select_elsewhere] is what the verification query
    returns when the table name pasted into it does not name the table that
    was written. *)
Record World : Type := mkWorld {
  fs : gmap string csv_source;
  db : gmap (string * string) (list ProductRevenueSummary);
  open_conns : nat;
  stdout : list message;
  clock : Z;
  connect_fault : option string;
  write_fault : option string;
  read_fault : option string;
  write_fault_stage : write_stage;
  csv_write_fault : option string;
  select_elsewhere : list (string * Q)
}.

Definition set_fs (f : gmap string csv_source) (w : World) : World :=
  mkWorld f (db w) (open_conns w) (stdout w) (clock w)
          (connect_fault w) (write_fault w) (read_fault w)
          (write_fault_stage w) (csv_write_fault w) (select_elsewhere w).

Definition set_db (d : gmap (string * string) (list ProductRevenueSummary))
    (w : World) : World :=
  mkWorld (fs w) d (open_conns w) (stdout w) (clock w)
          (connect_fault w) (write_fault w) (read_fault w)
          (write_fault_stage w) (csv_write_fault w) (select_elsewhere w).

Definition set_open_conns (n : nat) (w : World) : World :=
  mkWorld (fs w) (db w) n (stdout w) (clock w)
          (connect_fault w) (write_fault w) (read_fault w)
          (write_fault_stage w) (csv_write_fault w) (select_elsewhere w).

Definition set_stdout (o : list message) (w : World) : World :=
  mkWorld (fs w) (db w) (open_conns w) o (clock w)
          (connect_fault w) (write_fault w) (read_fault w)
          (write_fault_stage w) (csv_write_fault w) (select_elsewhere w).

Definition set_clock (t : Z) (w : World) : World :=
  mkWorld (fs w) (db w) (open_conns w) (stdout w) t
          (connect_fault w) (write_fault w) (read_fault w)
          (write_fault_stage w) (csv_write_fault w) (select_elsewhere w).

(** ** The monad of Python statements *)

Definition Py (A : Type) : Type := World → World * outcome A.

Definition py_ret {A} (a : A) : Py A := λ w, (w, Return a).

Definition py_bind {A B} (m : Py A) (k : A → Py B) : Py B :=
  λ w, match m w with
       | (w', Return a) => k a w'
       | (w', Raise e) => (w', Raise e)
       end.

(** [try: m  except ... as e: h e].  What [m] did to the world before it
    raised stays done. *)
Definition try_except {A} (m : Py A) (h : exn → Py A) : Py A :=
  λ w, match m w with
       | (w', Return a) => (w', Return a)
       | (w', Raise e) => h e w'
       end.

(** A pure computation that may raise, run as a statement. *)
Definition lift {A} (o : outcome A) : Py A := λ w, (w, o).

Notation "'let!' x := m 'in' k" := (py_bind m (λ x, k))
  (at level 10, x name, m at level 100, k at level 200).
Notation "'run!' m 'in' k" := (py_bind m (λ _, k))
  (at level 10, m at level 100, k at level 200).

Definition print (m : message) : Py unit :=
  λ w, (set_stdout (stdout w ++ [m]) w, Return tt).

(** [datetime.now()]: time does not stand still between two readings. *)
Definition datetime_now : Py Z :=
  λ w, (set_clock (clock w + 1)%Z w, Return (clock w)).

(** Bind of the exception-only fragment. *)
Definition obind {A B} (o : outcome A) (k : A → outcome B) : outcome B :=
  match o with
  | Return a => k a
  | Raise e => Raise e
  end.

(** The value of a computation that returned, [d] if it raised. *)
Definition returned {A} (d : A) (o : outcome A) : A :=
  match o with
  | Return a => a
  | Raise _ => d
  end.

(** [[f x for x in l]], stopping at the first element on which [f] raises. *)
Fixpoint traverse {A B} (f : A → outcome B) (l : list A) : outcome (list B) :=
  match l with
  | [] => Return []
  | x :: l' => obind (f x) (λ y, obind (traverse f l') (λ ys, Return (y :: ys)))
  end.

(** ** Configuration (lines 7-9) *)

Definition CSV_FILE : string := "sales_data.csv".
Definition DB_FILE : string := "analytics_db.sqlite".
Definition TABLE_NAME : string := "product_monthly_revenue".

(** ** pandas column operations used by [transform_data] *)

Definition amount_isna (a : amount_cell) : bool :=
  match a with
  | ANull => true
  | _ => false
  end.

Definition isna {A} (c : option A) : bool :=
  match c with
  | None => true
  | Some _ => false
  end.

(** [df.isna().any(axis=1)]: some cell of the row is missing. *)
Definition row_has_na (r : RawTransaction) : bool :=
  isna (transaction_id r) || isna (product_id r) || isna (date r)
  || amount_isna (amount r) || isna (category r).

(** [df.dropna()] with its default arguments ([axis=0], [how='any'], no
    [subset]): the rows without any missing cell, in their order. *)
Definition dropna (df : list RawTransaction) : list RawTransaction :=
  List.filter (λ r, negb (row_has_na r)) df.

(** [0 < x] on rationals. *)
Definition Qpositive (x : Q) : bool := negb (Qle_bool x 0).

(** One cell of [column > 0].  A missing value compares false; a string
    against the integer [0] raises [TypeError]. *)
Definition gt_zero (a : amount_cell) : outcome bool :=
  match a with
  | ANull => Return false
  | ANum x => Return (Qpositive x)
  | AStr s => Raise (TypeError "'>' not supported between instances of 'str' and 'int'")
  end.

(** [df[mask]]: the rows whose entry of the boolean mask is [True]. *)
Fixpoint boolean_index {A} (df : list A) (mask : list bool) : list A :=
  match df, mask with
  | r :: df', b :: mask' =>
      if b then r :: boolean_index df' mask' else boolean_index df' mask'
  | _, _ => []
  end.

(** Line 48, [df_cleaned[df_cleaned['amount'] > 0]]: the whole mask is
    computed first, so one string in the column makes the statement raise;
    otherwise the rows with a strictly positive amount are kept. *)
Definition sign_filter (df_cleaned : list RawTransaction)
    : outcome (list RawTransaction) :=
  obind (traverse gt_zero (map amount df_cleaned)) (λ mask,
  Return (boolean_index df_cleaned mask)).

(** [df['date'] = dates] and [df['amount'] = amounts]: the two columns are
    replaced, row by row; the other columns are kept. *)
Fixpoint assign_columns (df : list RawTransaction) (dates : list (option Z))
    (amounts : list (option Q)) : list CleanTransaction :=
  match df, dates, amounts with
  | r :: df', d :: dates', a :: amounts' =>
      mkClean (transaction_id r) (product_id r) d a (category r)
      :: assign_columns df' dates' amounts'
  | _, _, _ => []
  end.

(** ** Grouping (lines 56-61) *)

(** The order of two group keys: lexicographic on the characters, as Python
    compares [str]. *)
Definition key_le (a b : string * Q) : Prop :=
  String.leb a.1 b.1 = true.

Global Instance key_le_dec a b : Decision (key_le a b).
Proof. unfold key_le. apply _. Defined.

(** One step of the split of [groupby]: the row's amount joins the values of
    the row's group, after those of the earlier rows.  A missing key puts
    the row in no group ([dropna=True]); a missing amount leaves the values
    of its group as they are ([skipna]). *)
Definition group_add (acc : gmap string (list Q)) (r : CleanTransaction)
    : gmap string (list Q) :=
  match c_product_id r with
  | None => acc
  | Some k =>
      match c_amount r with
      | None => <[k := default [] (acc !! k)]> acc
      | Some x => <[k := (default [] (acc !! k) ++ [x])%list]> acc
      end
  end.

(** [groupby('product_id')['amount']]: for each key, the amounts of its rows
    in the order of the rows. *)
Definition group_values (df : list CleanTransaction) : gmap string (list Q) :=
  foldl group_add ∅ df.

(** ** File system and database primitives *)

(** [os.path.exists]. *)
Definition path_exists (path : string) : Py bool :=
  λ w, (w, Return (bool_decide (is_Some (fs w !! path)))).

(** [pd.read_csv]: a missing file raises [FileNotFoundError], a file that
    cannot be parsed raises some other exception. *)
Definition read_csv (path : string) : Py (list RawTransaction) :=
  λ w, match fs w !! path with
       | None => (w, Raise (FileNotFoundError path))
       | Some (Malformed why) => (w, Raise (OtherError why))
       | Some (Parsed rows) => (w, Return rows)
       end.

(** [df.to_csv(path, index=False)]: the file is created or overwritten, and
    a later [read_csv] gives the frame back; or the write fails and the file
    system is as before. *)
Definition to_csv (df : list RawTransaction) (path : string) : Py unit :=
  λ w, match csv_write_fault w with
       | Some why => (w, Raise (OtherError why))
       | None => (set_fs (<[path := Parsed df]> (fs w)) w, Return tt)
       end.

(** The file system after SQLite opened a database at [path]: a file that
    was there is left as it is, a missing one is created, and [read_csv]
    raises on it as it does on an empty file. *)
Definition create_database_file (path : string)
    (files : gmap string csv_source) : gmap string csv_source :=
  match files !! path with
  | Some _ => files
  | None => <[path := Malformed "No columns to parse from file"]> files
  end.

(** [sqlite3.connect]: the database file is created when it is missing; the
    connection is named by the file it is open on. *)
Definition sqlite3_connect (path : string) : Py string :=
  λ w, match connect_fault w with
       | Some why => (w, Raise (OtherError why))
       | None =>
           (set_fs (create_database_file path (fs w))
              (set_open_conns (S (open_conns w)) w),
            Return path)
       end.

(** [df.to_sql(table, conn, if_exists='replace', index=False)]: the table is
    dropped if it exists and created again, and the rows of [df] are
    inserted.  The drop and the creation are committed before the rows are
    inserted: a write that fails at the DROP leaves the table as it was, a
    write that fails at the CREATE leaves no table, and a write that fails
    at the INSERT leaves the table without rows. *)
Definition to_sql (df : list ProductRevenueSummary) (table : string)
    (conn : string) : Py unit :=
  λ w, match write_fault w with
       | Some why =>
           match write_fault_stage w with
           | AtDrop => (w, Raise (OtherError why))
           | AtCreate =>
               (set_db (delete (conn, table) (db w)) w, Raise (OtherError why))
           | AtInsert =>
               (set_db (<[(conn, table) := []]> (db w)) w,
                Raise (OtherError why))
           end
       | None => (set_db (<[(conn, table) := df]> (db w)) w, Return tt)
       end.

Definition is_letter (c : ascii) : bool :=
  let n := N_of_ascii c in
  ((65 <=? n) && (n <=? 90) || (97 <=? n) && (n <=? 122) || (n =? 95))%N.

Definition is_digit (c : ascii) : bool :=
  let n := N_of_ascii c in ((48 <=? n) && (n <=? 57))%N.

Fixpoint all_chars (f : ascii → bool) (s : string) : bool :=
  match s with
  | EmptyString => true
  | String c s' => f c && all_chars f s'
  end.

(** The lower-case form of an ASCII letter. *)
Definition lower (c : ascii) : ascii :=
  let n := N_of_ascii c in
  if ((65 <=? n) && (n <=? 90))%N then ascii_of_N (n + 32) else c.

Fixpoint lower_string (s : string) : string :=
  match s with
  | EmptyString => EmptyString
  | String c s' => String (lower c) (lower_string s')
  end.

(** The keywords of SQLite, which it reads in any letter case. *)
Definition sqlite_keywords : list string :=
  ["abort"; "action"; "add"; "after"; "all"; "alter"; "always"; "analyze";
    "and"; "as"; "asc"; "attach"; "autoincrement"; "before"; "begin";
    "between"; "by"; "cascade"; "case"; "cast"; "check"; "collate"; "column";
    "commit"; "conflict"; "constraint"; "create"; "cross"; "current";
    "current_date"; "current_time"; "current_timestamp"; "database";
    "default"; "deferrable"; "deferred"; "delete"; "desc"; "detach";
    "distinct"; "do"; "drop"; "each"; "else"; "end"; "escape"; "except";
    "exclude"; "exclusive"; "exists"; "explain"; "fail"; "filter"; "first";
    "following"; "for"; "foreign"; "from"; "full"; "generated"; "glob";
    "group"; "groups"; "having"; "if"; "ignore"; "immediate"; "in"; "index";
    "indexed"; "initially"; "inner"; "insert"; "instead"; "intersect";
    "into"; "is"; "isnull"; "join"; "key"; "last"; "left"; "like"; "limit";
    "match"; "materialized"; "natural"; "no"; "not"; "nothing"; "notnull";
    "null"; "nulls"; "of"; "offset"; "on"; "or"; "order"; "others"; "outer";
    "over"; "partition"; "plan"; "pragma"; "preceding"; "primary"; "query";
    "raise"; "range"; "recursive"; "references"; "regexp"; "reindex";
    "release"; "rename"; "replace"; "restrict"; "returning"; "right";
    "rollback"; "row"; "rows"; "savepoint"; "select"; "set"; "table"; "temp";
    "temporary"; "then"; "ties"; "to"; "transaction"; "trigger"; "unbounded";
    "union"; "unique"; "update"; "using"; "vacuum"; "values"; "view";
    "virtual"; "when"; "where"; "window"; "with"; "within"; "without" ].

(** A name that SQLite reads as the name of one table when it is pasted
    unquoted into a statement: a letter or underscore followed by letters,
    digits and underscores, that is not a keyword and does not begin with
    the prefix kept for the tables of SQLite itself. *)
Definition bare_identifier (name : string) : bool :=
  match name with
  | EmptyString => false
  | String c rest =>
      is_letter c && all_chars (λ c', is_letter c' || is_digit c') rest
  end
  && negb (bool_decide (lower_string name ∈ sqlite_keywords))
  && negb (String.prefix "sqlite_" (lower_string name)).

(** [pd.read_sql_query(f"SELECT product_id, total_revenue_usd FROM
    {table_name}", conn)]: the name is pasted unquoted.  When the query
    does not fail, a bare identifier names the table of that name; any
    other text makes the query read from elsewhere. *)
Definition read_sql_query (table : string) (conn : string)
    : Py (list (string * Q)) :=
  λ w, match read_fault w with
       | Some why => (w, Raise (OtherError why))
       | None =>
           if bare_identifier table then
             match db w !! (conn, table) with
             | None => (w, Raise (OtherError "no such table"))
             | Some rows =>
                 (w, Return (map (λ r, (s_product_id r, total_revenue_usd r))
                               rows))
             end
           else (w, Return (select_elsewhere w))
       end.

(** [conn.close()]. *)
Definition conn_close (conn : string) : Py unit :=
  λ w, (set_open_conns (pred (open_conns w)) w, Return tt).

(** ** Lines 11-23 *)

Definition mock_row (i : Z) (p d : string) (a : amount_cell) (c : string)
    : RawTransaction :=
  mkRaw (Some i) (Some p) (Some d) a (Some c).

Definition mock_data : list RawTransaction :=
  [ mock_row 1 "P101" "2024-09-01" (ANum 15.50) "Gadget";
    mock_row 2 "P102" "2024-09-01" (ANum 20.00) "Food";
    mock_row 3 "P101" "2024-09-02" (ANum 15.50) "Gadget";
    mock_row 4 "P103" "2024-09-02" (ANum 50.99) "Service";
    mock_row 5 "P102" "2024-09-03" (ANum 20.00) "Food";
    mock_row 6 "P104" "2024-09-03" (ANum (-10.00)) "Refund";
    mock_row 7 "P101" "2024-09-04" ANull "Gadget";
    mock_row 8 "P103" "2024-09-04" (ANum 50.99) "Service";
    mock_row 9 "P105" "2024-09-05" (ANum 5.00) "Book";
    mock_row 10 "P102" "2024-09-05" (ANum 20.00) "Food" ].

Definition generate_mock_data : Py unit :=
  run! print (MsgGenerating CSV_FILE) in
  run! to_csv mock_data CSV_FILE in
  print MsgGenerated.

(** ** Lines 25-37 *)

Definition extract_data (csv_file_path : string)
    : Py (option (list RawTransaction)) :=
  run! print (MsgExtract csv_file_path) in
  try_except
    (let! df := read_csv csv_file_path in
     run! print (MsgRead (length df)) in
     py_ret (Some df))
    (λ e, match e with
          | FileNotFoundError _ =>
              run! print (MsgNotFound csv_file_path) in
              py_ret None
          | _ =>
              run! print (MsgExtractionError e) in
              py_ret None
          end).

(** ** Lines 68-89 *)

Definition load_data (df : list ProductRevenueSummary) (db_file_path : string)
    (table_name : string) : Py unit :=
  run! print (MsgLoad db_file_path) in
  try_except
    (let! conn := sqlite3_connect db_file_path in
     run! to_sql df table_name conn in
     run! print (MsgLoaded (length df) table_name) in
     let! verification_df := read_sql_query table_name conn in
     run! print (MsgVerification verification_df) in
     conn_close conn)
    (λ e, print (MsgLoadError e)).

(** ** Sample parsers and worlds, for running the model *)

Definition digit_value (c : ascii) : option Z :=
  let n := Z.of_N (N_of_ascii c) in
  if bool_decide (48 ≤ n ≤ 57)%Z then Some (n - 48)%Z else None.

Fixpoint digits_value (acc : Z) (s : string) : option Z :=
  match s with
  | EmptyString => Some acc
  | String c s' =>
      match digit_value c with
      | Some d => digits_value (10 * acc + d)%Z s'
      | None => None
      end
  end.

(** Reads [YYYY-MM-DD] as the number [YYYYMMDD]; anything else is not a
    date in this format. *)
Definition iso_date (s : string) : option Z :=
  match s with
  | String y1 (String y2 (String y3 (String y4 (String "-"
      (String m1 (String m2 (String "-" (String d1 (String d2 EmptyString))))))))) =>
      digits_value 0
        (String y1 (String y2 (String y3 (String y4
          (String m1 (String m2 (String d1 (String d2 EmptyString))))))))
  | _ => None
  end.

(** The months by name. *)
Definition month_names : list (string * Z) :=
  [ ("January", 1%Z); ("February", 2%Z); ("March", 3%Z); ("April", 4%Z);
    ("May", 5%Z); ("June", 6%Z); ("July", 7%Z); ("August", 8%Z);
    ("September", 9%Z); ("October", 10%Z); ("November", 11%Z);
    ("December", 12%Z) ].

(** Reads [Month YYYY] as the first day of that month: [September 2024] is
    the number [20240901]. *)
Definition month_year_date (s : string) : option Z :=
  head (omap (λ m : string * Z,
                if String.prefix (m.1 ++ " ") s
                   && bool_decide (String.length s
                                   = (String.length m.1 + 5)%nat)
                then (λ y, y * 10000 + m.2 * 100 + 1)%Z
                     <$> digits_value 0
                           (String.substring (S (String.length m.1)) 4 s)
                else None)
          month_names).

(** Reads a date in either format. *)
Definition lenient_date (s : string) : option Z :=
  match iso_date s with
  | Some t => Some t
  | None => month_year_date s
  end.

(** A sample of how [pd.to_datetime] reads the strings of a column: when the
    first value of the column is in the ISO format, that format is
    required of every value; otherwise each value is read on its own. *)
Definition sample_parse_datetime (column : list (option string))
    : string → option Z :=
  match head (omap id column) with
  | Some first =>
      match iso_date first with
      | Some _ => iso_date
      | None => lenient_date
      end
  | None => lenient_date
  end.

(** Reads a non-empty string of decimal digits as a number. *)
Definition sample_parse_number (s : string) : option Q :=
  match s with
  | EmptyString => None
  | _ => (λ z, inject_Z z) <$> digits_value 0 s
  end.

(** The exact sum, added from the left, starting from zero: what the sum of
    a group is as long as nothing overflows and nothing is rounded. *)
Definition Qsum (l : list Q) : Q := foldl Qplus 0%Q l.



Definition empty_world : World :=
  mkWorld ∅ ∅ 0 [] 1000 None None None AtDrop None [].

(** A world whose CSV file exists but cannot be parsed. *)
Definition malformed_world : World :=
  mkWorld {[ CSV_FILE := Malformed "Error tokenizing data" ]} ∅ 0 [] 1000
          None None None AtDrop None [].

(** A world whose CSV file holds the mock data. *)
Definition mock_world : World :=
  mkWorld {[ CSV_FILE := Parsed mock_data ]} ∅ 0 [] 1000 None None None AtDrop None [].

(** A world whose database file cannot be opened. *)
Definition connect_failure_world : World :=
  mkWorld ∅ ∅ 0 [] 1000 (Some "unable to open database file") None None
          AtDrop None [].

(** A world whose database file cannot be written. *)
Definition write_failure_world : World :=
  mkWorld ∅ ∅ 0 [] 1000
          None (Some "attempt to write a readonly database") None
          AtDrop None [].

(** A world whose target table holds an older summary and in which the
    write fails at the CREATE. *)
Definition create_failure_world : World :=
  mkWorld ∅ {[ (DB_FILE, TABLE_NAME) := [mkSummary "P102" 60 900] ]} 0 [] 1000
          None (Some "database is locked") None AtCreate None [].

(** A world whose target table holds an older summary and in which the
    write fails at the INSERT. *)
Definition insert_failure_world : World :=
  mkWorld ∅ {[ (DB_FILE, TABLE_NAME) := [mkSummary "P102" 60 900] ]} 0 [] 1000
          None (Some "database or disk is full") None AtInsert None [].

(** A world in which the table is written but cannot be read back. *)
Definition read_failure_world : World :=
  mkWorld ∅ ∅ 0 [] 1000 None None (Some "disk I/O error") AtDrop None [].

Definition sample_summary : list ProductRevenueSummary :=
  [ mkSummary "P101" 31 1000; mkSummary "P105" 5 1000 ].

(** A row whose only missing cell is its category. *)
Definition row_without_category : RawTransaction :=
  mkRaw (Some 1%Z) (Some "P1") (Some "2024-09-01") (ANum 5) None.

(** A frame in which no amount passes the filters. *)
Definition rejected_input : list RawTransaction :=
  [ mock_row 6 "P104" "2024-09-03" (ANum (-10.00)) "Refund";
    mock_row 7 "P101" "2024-09-04" ANull "Gadget";
    mock_row 8 "P102" "2024-09-05" (ANum 0) "Food" ].

(** A frame whose amount is text that is not a number. *)
Definition text_amount_input : list RawTransaction :=
  [ mock_row 1 "P101" "2024-09-01" (AStr "abc") "Gadget" ].

(** A world whose CSV file holds a text amount. *)
Definition text_amount_world : World :=
  mkWorld {[ CSV_FILE := Parsed text_amount_input ]} ∅ 0 [] 1000
          None None None AtDrop None [].


(** Two rows whose product ids arrive in descending order. *)
Definition descending_input : list RawTransaction :=
  [ mock_row 1 "P2" "2024-09-01" (ANum 1) "Food";
    mock_row 2 "P1" "2024-09-02" (ANum 2) "Book" ].


(** Two rows whose dates are written in two formats, the ISO one first. *)
Definition iso_then_month_input : list RawTransaction :=
  [ mock_row 1 "P1" "2024-09-01" (ANum 1) "Food";
    mock_row 2 "P2" "September 2024" (ANum 2) "Book" ].

(** The same two rows, the date with the name of the month first. *)
Definition month_then_iso_input : list RawTransaction :=
  [ mock_row 2 "P2" "September 2024" (ANum 2) "Book";
    mock_row 1 "P1" "2024-09-01" (ANum 1) "Food" ].


(** A world in which a [SELECT] that does not name the written table finds
    the rows of some other table. *)
Definition other_table_world : World :=
  mkWorld ∅ ∅ 0 [] 1000 None None None AtDrop None [("P900", 1%Q)].

(** ** pandas coercions and the transform, over the parsers of pandas *)

Section Pipeline.

(** What pandas makes of the values, which the source leaves to pandas.

    [parse_datetime column s] is what [pd.to_datetime], applied to [column],
    makes of the string [s] of that column, [None] when it cannot read it:
    the format is settled for the column as a whole (from its first value),
    so the same string may be read in one column and refused in another.
    [parse_number s] is what [pd.to_numeric] makes of the string [s].
    [amount_sum l] is the sum [groupby(...).sum()] returns for a group whose
    amounts are [l], in the order of the rows, in the numeric type of the
    amount column: the additions of an [int64] column wrap around and those
    of a [float64] column round, so it need not be the exact sum. *)
Variable parse_datetime : list (option string) → string → option Z.
Variable parse_number : string → option Q.
Variable amount_sum : list Q → Q.

Definition to_datetime_cell (column : list (option string))
    (c : option string) : outcome (option Z) :=
  match c with
  | None => Return None
  | Some s =>
      match parse_datetime column s with
      | Some t => Return (Some t)
      | None => Raise (ValueError "Unknown datetime string format")
      end
  end.

Definition to_numeric_cell (a : amount_cell) : outcome (option Q) :=
  match a with
  | ANull => Return None
  | ANum x => Return (Some x)
  | AStr s =>
      match parse_number s with
      | Some x => Return (Some x)
      | None => Raise (ValueError "Unable to parse string")
      end
  end.

(** [pd.to_datetime(column)] and [pd.to_numeric(column)], with the default
    [errors='raise']. *)
Definition to_datetime (column : list (option string))
    : outcome (list (option Z)) :=
  traverse (to_datetime_cell column) column.

Definition to_numeric (column : list amount_cell)
    : outcome (list (option Q)) :=
  traverse to_numeric_cell column.

(** [groupby('product_id')['amount'].sum()]: each group is reduced to the
    sum of its amounts. *)
Definition group_sum (df : list CleanTransaction) : gmap string Q :=
  amount_sum <$> group_values df.

(** [groupby('product_id')['amount'].sum().reset_index()]: one pair per
    group, the key and the sum of the group's amounts, sorted by key
    ([sort=True] is the default of [groupby]). *)
Definition groupby_sum (df : list CleanTransaction) : list (string * Q) :=
  merge_sort key_le (map_to_list (group_sum df)).

(** Lines 52-53: the [date] column is converted first, then the [amount]
    column; each conversion replaces its column. *)
Definition normalize_types (df_filtered : list RawTransaction)
    : outcome (list CleanTransaction) :=
  obind (to_datetime (map date df_filtered)) (λ dates,
  obind (to_numeric (map amount df_filtered)) (λ amounts,
  Return (assign_columns df_filtered dates amounts))).

(** Line 63: the same time in every row. *)
Definition stamp (t : Z) (g : string * Q) : ProductRevenueSummary :=
  mkSummary g.1 g.2 t.

(** Lines 39-66. *)
Definition transform_data (df : list RawTransaction)
    : Py (list ProductRevenueSummary) :=
  run! print MsgTransform in
  let initial_count := length df in
  let df_cleaned := dropna df in
  run! print (MsgDroppedMissing (initial_count - length df_cleaned)) in
  let! df_filtered := lift (sign_filter df_cleaned) in
  run! print (MsgDroppedNonPositive (length df_cleaned - length df_filtered)) in
  let! df_typed := lift (normalize_types df_filtered) in
  let df_grouped := groupby_sum df_typed in
  let! t := datetime_now in
  let df_aggregated := map (stamp t) df_grouped in
  run! print (MsgTransformed (length df_aggregated)) in
  py_ret df_aggregated.

(** Lines 91-112. *)
Definition main : Py unit :=
  let! found := path_exists CSV_FILE in
  run! (if found then py_ret tt else generate_mock_data) in
  try_except
    (let! sales_df := extract_data CSV_FILE in
     match sales_df with
     | None => py_ret tt
     | Some sales_df =>
         let! analytics_df := transform_data sales_df in
         run! load_data analytics_df DB_FILE TABLE_NAME in
         print MsgComplete
     end)
    (λ e, print (MsgFatal e)).

(** ** Vocabulary of the statements *)

(** The test of line 48 on one row. *)
Definition amount_positive (r : RawTransaction) : bool :=
  match amount r with
  | ANum x => Qpositive x
  | _ => false
  end.

(** A number that is zero or negative. *)
Definition amount_nonpositive (r : RawTransaction) : bool :=
  match amount r with
  | ANum x => Qle_bool x 0
  | _ => false
  end.

(** The filtered records: what is left of the input after lines 45 and 48. *)
Definition surviving (df : list RawTransaction) : list RawTransaction :=
  List.filter amount_positive (dropna df).

Definition count {A} (f : A → bool) (l : list A) : nat :=
  length (List.filter f l).

(** The amounts of the records of product [P], in the order of the records. *)
Definition amounts_of (P : string) (df : list RawTransaction) : list Q :=
  omap (λ r, if decide (product_id r = Some P)
             then match amount r with ANum x => Some x | _ => None end
             else None) df.

(** Record [r] counts for product [P]: it has no missing value in any field,
    its product is [P] and its amount is a number greater than zero. *)
Definition counts_for (P : string) (r : RawTransaction) : Prop :=
  is_Some (transaction_id r) ∧ product_id r = Some P ∧ is_Some (date r)
  ∧ is_Some (category r) ∧ ∃ x, amount r = ANum x ∧ (0 < x)%Q.



(** How a row of the input and the row made of it by lines 52-53 relate,
    [dates] being the date column of the frame. *)
Definition typed_from (dates : list (option string)) (r : RawTransaction)
    (c : CleanTransaction) : Prop :=
  c_transaction_id c = transaction_id r
  ∧ c_product_id c = product_id r
  ∧ to_datetime_cell dates (date r) = Return (c_date c)
  ∧ to_numeric_cell (amount r) = Return (c_amount c)
  ∧ c_category c = category r.

(** The amounts of the rows of group [k], in the order of the rows. *)
Definition group_amounts (k : string) (df : list CleanTransaction) : list Q :=
  omap (λ c, if decide (c_product_id c = Some k) then c_amount c else None) df.


(** [w] with [msgs] printed after what was printed before. *)
Definition printed (msgs : list message) (w : World) : World :=
  set_stdout (stdout w ++ msgs) w.

(** * Properties *)

(** ** The exception-only fragment *)

Lemma traverse_Return {A B} (f : A → outcome B) l ys :
  traverse f l = Return ys → Forall2 (λ x y, f x = Return y) l ys.
Proof.
  revert ys. induction l as [|x l IH]; simpl; intros ys H.
  - injection H as <-. constructor.
  - destruct (f x) as [y|e] eqn:Hx; simpl in H; [|discriminate].
    destruct (traverse f l) as [ys'|e]; simpl in H; [|discriminate].
    injection H as <-. constructor; auto.
Qed.

Lemma traverse_Raise {A B} (f : A → outcome B) l e :
  traverse f l = Raise e → ∃ x, x ∈ l ∧ f x = Raise e.
Proof.
  induction l as [|x l IH]; simpl; intros H; [discriminate|].
  destruct (f x) as [y|e'] eqn:Hx; simpl in H.
  - destruct (traverse f l) as [ys'|e'']; simpl in H; [discriminate|].
    injection H as ->. destruct IH as (x' & Hin & Hx'); [done|].
    exists x'. split; [by right | done].
  - injection H as ->. exists x. split; [by left | done].
Qed.

Lemma traverse_total {A B} (f : A → outcome B) (g : A → B) l :
  Forall (λ x, f x = Return (g x)) l → traverse f l = Return (map g l).
Proof.
  induction 1 as [|x l Hx _ IH]; simpl; [done|]. by rewrite Hx, IH.
Qed.

Lemma traverse_fails {A B} (f : A → outcome B) l x e :
  x ∈ l → f x = Raise e → ∃ e', traverse f l = Raise e'.
Proof.
  induction 1 as [x l|x y l _ IH]; simpl; intros Hx.
  - rewrite Hx. by eexists.
  - destruct (f y); simpl; [|by eexists].
    destruct (IH Hx) as [e' ->]. by eexists.
Qed.

Lemma boolean_index_map {A} (f : A → bool) (l : list A) :
  boolean_index l (map f l) = List.filter f l.
Proof.
  induction l as [|x l IH]; simpl; [done|]. by rewrite IH.
Qed.

(** ** The order of group keys *)

Lemma string_compare_refl s : String.compare s s = Eq.
Proof.
  induction s as [|c s IH]; simpl; [done|].
  unfold Ascii.compare. by rewrite N.compare_refl.
Qed.

Lemma string_compare_lt_trans s1 s2 s3 :
  String.compare s1 s2 = Lt → String.compare s2 s3 = Lt →
  String.compare s1 s3 = Lt.
Proof.
  revert s2 s3.
  induction s1 as [|a s1 IH]; intros [|b s2] [|c s3]; simpl; try done.
  unfold Ascii.compare.
  destruct (N.compare_spec (N_of_ascii a) (N_of_ascii b)) as [Hab|Hab|Hab];
    destruct (N.compare_spec (N_of_ascii b) (N_of_ascii c)) as [Hbc|Hbc|Hbc];
    destruct (N.compare_spec (N_of_ascii a) (N_of_ascii c)) as [Hac|Hac|Hac];
    try done; try lia; eauto.
Qed.

Lemma string_leb_lt_or_eq s1 s2 :
  String.leb s1 s2 = true ↔ String.compare s1 s2 = Lt ∨ s1 = s2.
Proof.
  unfold String.leb. split.
  - destruct (String.compare s1 s2) eqn:H; try done; [|by left].
    right. by apply String.compare_eq_iff.
  - intros [->| ->]; [done|]. by rewrite string_compare_refl.
Qed.

Global Instance key_le_total : Total key_le.
Proof. intros a b. apply String.leb_total. Qed.

Global Instance key_le_trans : Transitive key_le.
Proof.
  intros a b c. unfold key_le. rewrite !string_leb_lt_or_eq.
  intros [H1|H1] [H2|H2].
  - left. eauto using string_compare_lt_trans.
  - left. by rewrite <- H2.
  - left. by rewrite H1.
  - right. congruence.
Qed.

Lemma string_ltb_leb_ne s1 s2 :
  String.leb s1 s2 = true → s1 ≠ s2 → String.ltb s1 s2 = true.
Proof.
  rewrite string_leb_lt_or_eq. unfold String.ltb. by intros [->|?] ?.
Qed.

(** A list sorted by [<=] without repetition is sorted by [<]. *)
Lemma sorted_nodup_strict (ks : list string) :
  StronglySorted (λ a b, String.leb a b = true) ks → NoDup ks →
  StronglySorted (λ a b, String.ltb a b = true) ks.
Proof.
  induction 1 as [|k ks Hs IH Hk]; intros Hnd; constructor.
  - apply IH. by apply NoDup_cons_1_2 in Hnd.
  - apply NoDup_cons in Hnd as [Hnotin _].
    rewrite Forall_forall in Hk |- *. intros k' Hin.
    apply string_ltb_leb_ne; [by apply Hk|].
    intros ->. apply Hnotin. by apply list_elem_of_In.
Qed.

(** ** The two filters *)

Lemma dropna_spec df r :
  r ∈ dropna df ↔ r ∈ df ∧ row_has_na r = false.
Proof.
  unfold dropna. rewrite !list_elem_of_In, filter_In.
  by rewrite negb_true_iff.
Qed.

Lemma gt_zero_numeric a :
  (∀ s, a ≠ AStr s) →
  gt_zero a = Return (match a with ANum x => Qpositive x | _ => false end).
Proof. destruct a; intros H; simpl; try done. by destruct (H s). Qed.

(** When no amount is a string, line 48 keeps the rows with a positive
    amount. *)
Lemma sign_filter_numeric df :
  Forall (λ r, ∀ s, amount r ≠ AStr s) df →
  sign_filter df = Return (List.filter amount_positive df).
Proof.
  intros H. unfold sign_filter.
  rewrite (traverse_total gt_zero
             (λ a, match a with ANum x => Qpositive x | _ => false end)).
  - simpl. f_equal. rewrite map_map. apply boolean_index_map.
  - rewrite Forall_map. eapply Forall_impl; [exact H|].
    intros r Hr. by apply gt_zero_numeric.
Qed.

(** A string in the amount column makes line 48 raise [TypeError]. *)
Lemma sign_filter_string df r s :
  r ∈ df → amount r = AStr s → ∃ msg, sign_filter df = Raise (TypeError msg).
Proof.
  intros Hin Hs. unfold sign_filter.
  destruct (traverse_fails gt_zero (map amount df) (AStr s)
              (TypeError "'>' not supported between instances of 'str' and 'int'"))
    as [e He]; [|done|].
  - rewrite <- Hs. by apply list_elem_of_fmap_2.
  - rewrite He. simpl. apply traverse_Raise in He as (a & _ & Ha).
    destruct a; simpl in Ha; try done. injection Ha as <-. by eexists.
Qed.

Lemma sign_filter_Return df out :
  sign_filter df = Return out →
  out = List.filter amount_positive df
  ∧ Forall (λ r, ∀ s, amount r ≠ AStr s) df.
Proof.
  intros H.
  assert (Hno : Forall (λ r, ∀ s, amount r ≠ AStr s) df).
  { rewrite Forall_forall. intros r Hr s Hs.
    destruct (sign_filter_string df r s) as [msg Hmsg]; [done..|congruence]. }
  split; [|done]. rewrite (sign_filter_numeric df Hno) in H. by injection H.
Qed.

(** Every surviving record is complete and has a strictly positive number
    as its amount. *)
Lemma surviving_spec df r :
  r ∈ surviving df ↔
  r ∈ df ∧ row_has_na r = false ∧ ∃ x, amount r = ANum x ∧ Qpositive x = true.
Proof.
  unfold surviving. rewrite list_elem_of_In, filter_In, <- list_elem_of_In.
  rewrite dropna_spec. unfold amount_positive. split.
  - intros [[? ?] Hp]. repeat split; try done.
    destruct (amount r); try done. by eexists.
  - intros (? & ? & x & Hx & ?). by rewrite Hx.
Qed.

(** ** Type normalization *)

Lemma assign_columns_typed column df dates amounts :
  Forall2 (λ x y, to_datetime_cell column x = Return y) (map date df) dates →
  Forall2 (λ x y, to_numeric_cell x = Return y) (map amount df) amounts →
  Forall2 (typed_from column) df (assign_columns df dates amounts).
Proof.
  revert dates amounts. induction df as [|r df IH]; intros dates amounts Hd Ha.
  - constructor.
  - simpl in Hd, Ha.
    apply Forall2_cons_inv_l in Hd as (d & dates' & Hd & Hds & ->).
    apply Forall2_cons_inv_l in Ha as (a & amounts' & Ha & Has & ->).
    simpl. constructor; [|by apply IH]. by repeat split.
Qed.

Lemma normalize_types_Return df out :
  normalize_types df = Return out →
  Forall2 (typed_from (map date df)) df out.
Proof.
  unfold normalize_types, to_datetime, to_numeric. intros H.
  destruct (traverse (to_datetime_cell (map date df)) (map date df))
    as [dates|] eqn:Hd; simpl in H; [|done].
  destruct (traverse to_numeric_cell (map amount df)) as [amounts|] eqn:Ha;
    simpl in H; [|done].
  injection H as <-.
  apply assign_columns_typed; by apply traverse_Return.
Qed.

(** Every exception of lines 52-53 is a [ValueError]. *)
Lemma normalize_types_Raise df e :
  normalize_types df = Raise e → ∃ msg, e = ValueError msg.
Proof.
  unfold normalize_types, to_datetime, to_numeric. intros H.
  destruct (traverse (to_datetime_cell (map date df)) (map date df))
    as [dates|e1] eqn:Hd; simpl in H.
  - destruct (traverse to_numeric_cell (map amount df)) as [amounts|e2] eqn:Ha;
      simpl in H; [done|]. injection H as ->.
    apply traverse_Raise in Ha as (a & _ & Ha).
    destruct a as [|x|s]; simpl in Ha; try done.
    destruct (parse_number s); [done|]. injection Ha as <-. by eexists.
  - injection H as ->.
    apply traverse_Raise in Hd as (c & _ & Hc).
    destruct c as [s|]; simpl in Hc; [|done].
    destruct (parse_datetime _ s); [done|]. injection Hc as <-. by eexists.
Qed.

(** Lines 52-53 succeed when every date of the column parses within the
    column and every amount is a number or a string that parses. *)
Lemma normalize_types_total df :
  Forall (λ r, (∀ s, date r = Some s →
                     is_Some (parse_datetime (map date df) s))
               ∧ (∀ s, amount r = AStr s → is_Some (parse_number s))) df →
  ∃ out, normalize_types df = Return out.
Proof.
  intros H. destruct (normalize_types df) as [out|e] eqn:Hn; [by eexists|].
  exfalso. unfold normalize_types, to_datetime, to_numeric in Hn.
  destruct (traverse (to_datetime_cell (map date df)) (map date df))
    as [dates|e1] eqn:Hd; simpl in Hn.
  - destruct (traverse to_numeric_cell (map amount df)) as [amounts|e2] eqn:Ha;
      simpl in Hn; [done|].
    apply traverse_Raise in Ha as (a & Hin & Ha).
    apply list_elem_of_fmap in Hin as (r & -> & Hr).
    rewrite Forall_forall in H. destruct (H r Hr) as [_ Hnum].
    destruct (amount r) as [|x|s]; simpl in Ha; try done.
    destruct (Hnum s eq_refl) as [x Hx]. by rewrite Hx in Ha.
  - apply traverse_Raise in Hd as (c & Hin & Hc).
    apply list_elem_of_fmap in Hin as (r & -> & Hr).
    rewrite Forall_forall in H. destruct (H r Hr) as [Hdate _].
    destruct (date r) as [s|]; simpl in Hc; [|done].
    destruct (Hdate s eq_refl) as [t Ht]. by rewrite Ht in Hc.
Qed.

(** ** Grouping *)

Lemma foldl_group_add_absent df acc k :
  Forall (λ c, c_product_id c ≠ Some k) df →
  foldl group_add acc df !! k = acc !! k.
Proof.
  revert acc. induction df as [|c df IH]; intros acc H; simpl; [done|].
  apply Forall_cons in H as [Hc Hdf]. rewrite IH by done.
  unfold group_add. destruct (c_product_id c) as [k'|]; [|done].
  assert (k' ≠ k) by congruence.
  destruct (c_amount c); by rewrite lookup_insert_ne.
Qed.

Lemma foldl_group_add_present df acc k :
  Exists (λ c, c_product_id c = Some k) df →
  foldl group_add acc df !! k
  = Some (default [] (acc !! k) ++ group_amounts k df)%list.
Proof.
  assert (Hgen : ∀ df acc, is_Some (acc !! k) ∨
                   Exists (λ c, c_product_id c = Some k) df →
            foldl group_add acc df !! k
            = Some (default [] (acc !! k) ++ group_amounts k df)%list).
  { clear. induction df as [|c df IH]; intros acc H; simpl.
    - destruct H as [[x Hx]|H]; [|by apply Exists_nil in H].
      rewrite Hx. simpl. by rewrite app_nil_r.
    - unfold group_amounts. csimpl. fold (group_amounts k df).
      unfold group_add at 2.
      destruct (c_product_id c) as [k'|] eqn:Hk.
      + destruct (decide (k' = k)) as [->|Hne].
        * rewrite decide_True by done.
          destruct (c_amount c) as [x|]; rewrite IH;
            rewrite ?lookup_insert_eq; simpl; eauto.
          by rewrite <- app_assoc.
        * rewrite decide_False by congruence.
          assert (Hsame : ∀ v, <[k':=v]> acc !! k = acc !! k)
            by (intros; by rewrite lookup_insert_ne).
          destruct (c_amount c) as [x|]; (rewrite IH; rewrite Hsame; [done|]);
            (destruct H as [H|H]; [by left|]);
            (apply Exists_cons in H as [H|H]; [congruence | by right]).
      + rewrite decide_False by congruence. apply IH.
        destruct H as [H|H]; [by left|].
        apply Exists_cons in H as [H|H]; [congruence | by right]. }
  intros H. apply Hgen. by right.
Qed.

Lemma group_sum_lookup df k :
  group_sum df !! k
  = if decide (Exists (λ c, c_product_id c = Some k) df)
    then Some (amount_sum (group_amounts k df)) else None.
Proof.
  unfold group_sum, group_values. rewrite lookup_fmap. case_decide as H.
  - by rewrite foldl_group_add_present.
  - rewrite foldl_group_add_absent; [done|].
    apply Forall_forall. intros c Hc Hk. apply H, Exists_exists. eauto.
Qed.

(** The pairs of [groupby_sum] are the entries of the running totals. *)
Lemma groupby_sum_elem df k v :
  (k, v) ∈ groupby_sum df ↔ group_sum df !! k = Some v.
Proof.
  unfold groupby_sum. rewrite merge_sort_Permutation.
  apply elem_of_map_to_list.
Qed.

Lemma groupby_sum_keys_NoDup df : NoDup (groupby_sum df).*1.
Proof.
  unfold groupby_sum. rewrite merge_sort_Permutation.
  apply NoDup_fst_map_to_list.
Qed.

Lemma groupby_sum_keys_sorted df :
  StronglySorted (λ a b, String.ltb a b = true) (groupby_sum df).*1.
Proof.
  apply sorted_nodup_strict; [|apply groupby_sum_keys_NoDup].
  apply (StronglySorted_fmap fst key_le (λ a b, String.leb a b = true)).
  - by intros a b.
  - unfold groupby_sum. apply StronglySorted_merge_sort; apply _.
Qed.

(** ** The transform as a whole *)

(** The three ways [transform_data] can end: line 48 raises, lines 52-53
    raise, or the aggregated frame is returned. *)
Lemma transform_data_eq df w :
  transform_data df w =
  let dropped := MsgDroppedMissing (length df - length (dropna df)) in
  match sign_filter (dropna df) with
  | Raise e => (printed [MsgTransform; dropped] w, Raise e)
  | Return fl =>
      let dropped' := MsgDroppedNonPositive (length (dropna df) - length fl) in
      match normalize_types fl with
      | Raise e => (printed [MsgTransform; dropped; dropped'] w, Raise e)
      | Return typed =>
          (set_clock (clock w + 1)
             (printed [MsgTransform; dropped; dropped';
                       MsgTransformed (length (groupby_sum typed))] w),
           Return (map (stamp (clock w)) (groupby_sum typed)))
      end
  end.
Proof.
  destruct w. unfold transform_data, py_bind, lift, print, datetime_now, py_ret,
    printed, set_stdout, set_clock. simpl.
  destruct (sign_filter (dropna df)) as [fl|e]; simpl.
  - destruct (normalize_types fl) as [typed|e]; simpl.
    + rewrite length_map. by rewrite <- !app_assoc.
    + by rewrite <- !app_assoc.
  - by rewrite <- !app_assoc.
Qed.

Lemma transform_data_Return df w w' out :
  transform_data df w = (w', Return out) →
  ∃ typed, sign_filter (dropna df) = Return (surviving df)
           ∧ normalize_types (surviving df) = Return typed
           ∧ out = map (stamp (clock w)) (groupby_sum typed).
Proof.
  rewrite transform_data_eq. simpl.
  destruct (sign_filter (dropna df)) as [fl|e] eqn:Hs; [|done].
  apply sign_filter_Return in Hs as Hfl. destruct Hfl as [-> _].
  fold (surviving df) in *.
  destruct (normalize_types (surviving df)) as [typed|e] eqn:Hn; [|done].
  intros [= _ <-]. by exists typed.
Qed.

(** [transform_data] returns whenever no complete row has a string as its
    amount and the date of every surviving row parses within the column of
    the surviving rows. *)
Lemma transform_data_returns df w :
  Forall (λ r, ∀ s, amount r ≠ AStr s) (dropna df) →
  Forall (λ r, ∀ s, date r = Some s →
               is_Some (parse_datetime (map date (surviving df)) s))
    (surviving df) →
  ∃ w' out, transform_data df w = (w', Return out).
Proof.
  intros Hnum Hdate. rewrite transform_data_eq. simpl.
  rewrite (sign_filter_numeric _ Hnum). fold (surviving df).
  destruct (normalize_types_total (surviving df)) as [typed ->]; [|by eauto].
  rewrite Forall_forall in Hdate |- *. intros r Hr. split; [by apply Hdate|].
  intros s Hs. apply surviving_spec in Hr as (_ & _ & x & Hx & _). congruence.
Qed.

Lemma typed_group_amounts column fl typed k :
  Forall2 (typed_from column) fl typed →
  Forall (λ r, ∃ x, amount r = ANum x) fl →
  group_amounts k typed = amounts_of k fl.
Proof.
  induction 1 as [|r c fl typed (_ & Hk & _ & Ha & _) _ IH]; intros Hnum;
    [done|].
  apply Forall_cons in Hnum as [[x Hx] Hnum].
  unfold group_amounts, amounts_of in *. csimpl.
  rewrite IH by done. rewrite Hk. rewrite Hx in Ha |- *. simpl in Ha.
  injection Ha as <-. done.
Qed.

Lemma typed_keys column fl typed k :
  Forall2 (typed_from column) fl typed →
  Exists (λ c, c_product_id c = Some k) typed ↔ Some k ∈ map product_id fl.
Proof.
  induction 1 as [|r c fl typed (_ & Hk & _) _ IH]; simpl.
  - rewrite Exists_nil. by rewrite elem_of_nil.
  - rewrite Exists_cons, elem_of_cons, IH, Hk. intuition congruence.
Qed.

Lemma surviving_numeric df :
  Forall (λ r, ∃ x, amount r = ANum x) (surviving df).
Proof.
  apply Forall_forall. intros r Hr.
  apply surviving_spec in Hr as (_ & _ & x & Hx & _). eauto.
Qed.

(** The rows of a returned frame: one for each product of the surviving
    records, carrying the sum of that product's amounts and the time read
    from the clock. *)
Lemma transform_data_rows df w w' out row :
  transform_data df w = (w', Return out) →
  row ∈ out ↔
  Some (s_product_id row) ∈ map product_id (surviving df)
  ∧ total_revenue_usd row
    = amount_sum (amounts_of (s_product_id row) (surviving df))
  ∧ processed_at row = clock w.
Proof.
  intros H. apply transform_data_Return in H as (typed & _ & Hn & ->).
  apply normalize_types_Return in Hn.
  rewrite list_elem_of_fmap. split.
  - intros ([k v] & -> & Hin). simpl.
    apply groupby_sum_elem in Hin. rewrite group_sum_lookup in Hin.
    case_decide as Hk; [|done]. injection Hin as <-.
    rewrite (typed_group_amounts _ _ _ _ Hn (surviving_numeric df)).
    by rewrite <- (typed_keys _ _ _ _ Hn).
  - intros (Hk & Hv & Ht). exists (s_product_id row, total_revenue_usd row).
    split; [destruct row; simpl in *; by subst|].
    apply groupby_sum_elem. rewrite group_sum_lookup.
    rewrite decide_True by (by apply (typed_keys _ _ _ _ Hn)).
    by rewrite Hv, (typed_group_amounts _ _ _ _ Hn (surviving_numeric df)).
Qed.

Lemma transform_data_keys df w w' out :
  transform_data df w = (w', Return out) →
  ∃ typed, normalize_types (surviving df) = Return typed
           ∧ map s_product_id out = (groupby_sum typed).*1.
Proof.
  intros H. apply transform_data_Return in H as (typed & _ & Hn & ->).
  exists typed. split; [done|]. rewrite map_map. done.
Qed.

(** ** The records that count for a product *)

Lemma Qpositive_iff x : Qpositive x = true ↔ (0 < x)%Q.
Proof.
  unfold Qpositive. rewrite negb_true_iff. split.
  - intros H. apply Qnot_le_lt. intros Hle. apply Qle_bool_iff in Hle.
    congruence.
  - intros H. destruct (Qle_bool x 0) eqn:Hle; [|done].
    apply Qle_bool_iff in Hle. by apply Qlt_not_le in H.
Qed.

(** The rows kept by lines 45 and 48 are the records that count for their
    product. *)
Lemma surviving_counts_for df r P :
  r ∈ surviving df ∧ product_id r = Some P ↔ r ∈ df ∧ counts_for P r.
Proof.
  rewrite surviving_spec. unfold counts_for, row_has_na. split.
  - intros ((Hr & Hna & x & Hx & Hpos) & HP). split; [done|].
    rewrite Hx in Hna.
    destruct (transaction_id r), (product_id r), (date r), (category r);
      try done.
    repeat split; try done. exists x. split; [done|]. by apply Qpositive_iff.
  - intros (Hr & [t Ht] & HP & [d Hd] & [c Hc] & x & Hx & Hpos).
    repeat split; try done.
    + by rewrite Ht, HP, Hd, Hx, Hc.
    + exists x. split; [done|]. by apply Qpositive_iff.
Qed.

Lemma counts_for_surviving_product df P :
  (∃ r, r ∈ df ∧ counts_for P r) ↔ Some P ∈ map product_id (surviving df).
Proof.
  rewrite list_elem_of_fmap. split.
  - intros (r & Hr). apply surviving_counts_for in Hr as [Hr HP]. by exists r.
  - intros (r & HP & Hr). exists r. by apply surviving_counts_for.
Qed.



(** ** Claims about the transform *)


(** C2, amended.  When [transform_data] returns, no product id occurs in two
    output rows, and the product ids of the output are exactly the product
    ids of the records that count: those without a missing value in any
    field and with a strictly positive amount. *)
Theorem output_products_complete df w w' out :
  transform_data df w = (w', Return out) →
  NoDup (map s_product_id out)
  ∧ ∀ P, P ∈ map s_product_id out ↔ ∃ r, r ∈ df ∧ counts_for P r.
Proof.
  intros Hrun. split.
  - destruct (transform_data_keys _ _ _ _ Hrun) as (typed & _ & ->).
    apply groupby_sum_keys_NoDup.
  - intros P. rewrite counts_for_surviving_product.
    rewrite list_elem_of_fmap. split.
    + intros (row & -> & Hrow).
      by apply (transform_data_rows _ _ _ _ _ Hrun) in Hrow as (? & _).
    + intros HP.
      exists (mkSummary P (amount_sum (amounts_of P (surviving df))) (clock w)).
      split; [done|]. by apply (transform_data_rows _ _ _ _ _ Hrun).
Qed.

(** C10.  The rows of the output are in strictly ascending lexicographic
    order of [product_id]; two runs on the same input, in whatever worlds,
    give the same sequence of product ids and totals; and the order is not
    that of first appearance: the output for [descending_input] starts with
    P1 although P2 comes first in the input. *)
Theorem output_sorted_by_product_id df w w' out :
  transform_data df w = (w', Return out) →
  StronglySorted (λ a b, String.ltb a b = true) (map s_product_id out)
  ∧ (∀ v v' out', transform_data df v = (v', Return out') →
       map (λ row, (s_product_id row, total_revenue_usd row)) out'
       = map (λ row, (s_product_id row, total_revenue_usd row)) out)
  ∧ (∀ v v' out', transform_data descending_input v = (v', Return out') →
       map s_product_id out' = ["P1"; "P2"]
       ∧ omap product_id (surviving descending_input) = ["P2"; "P1"]).
Proof.
  intros Hrun. split; [|split].
  - destruct (transform_data_keys _ _ _ _ Hrun) as (typed & _ & ->).
    apply groupby_sum_keys_sorted.
  - intros v v' out' Hrun'.
    apply transform_data_Return in Hrun as (typed & _ & Hn & ->).
    apply transform_data_Return in Hrun' as (typed' & _ & Hn' & ->).
    rewrite Hn in Hn'. injection Hn' as <-. rewrite !map_map. done.
  - intros v v' out' Hrun'. split; [|done].
    apply transform_data_Return in Hrun' as (typed & _ & Hn & ->).
    apply normalize_types_Return in Hn.
    change (surviving descending_input) with descending_input in Hn.
    unfold descending_input in Hn.
    apply Forall2_cons_inv_l in Hn as (c1 & typed1 & H1 & Hn & ->).
    apply Forall2_cons_inv_l in Hn as (c2 & typed2 & H2 & Hn & ->).
    apply Forall2_nil_inv_l in Hn as ->.
    destruct H1 as (_ & Hk1 & _ & Ha1 & _), H2 as (_ & Hk2 & _ & Ha2 & _).
    simpl in *. injection Ha1 as Ha1. injection Ha2 as Ha2.
    rewrite map_map. unfold groupby_sum, group_sum, group_values. simpl.
    unfold group_add. rewrite Hk1, Hk2, <- Ha1, <- Ha2. done.
Qed.

(** C8.  When every record has a missing amount or a number that is zero or
    negative, [transform_data] returns the empty frame, in every world. *)
Theorem empty_after_filtering df w :
  (∀ r, r ∈ df → amount r = ANull ∨ ∃ x, amount r = ANum x ∧ (x <= 0)%Q) →
  ∃ w', transform_data df w = (w', Return []).
Proof.
  intros Hall. rewrite transform_data_eq. simpl.
  assert (Hnum : Forall (λ r, ∀ s, amount r ≠ AStr s) (dropna df)).
  { apply Forall_forall. intros r Hr s Hs. apply dropna_spec in Hr as [Hr _].
    destruct (Hall r Hr) as [?|(x & ? & _)]; congruence. }
  rewrite (sign_filter_numeric _ Hnum).
  assert (Hnone : List.filter amount_positive (dropna df) = []).
  { destruct (List.filter amount_positive (dropna df)) as [|r l] eqn:Hf;
      [done|exfalso].
    assert (Hr : r ∈ surviving df) by (unfold surviving; rewrite Hf; by left).
    apply surviving_spec in Hr as (Hr & _ & x & Hx & Hpos).
    destruct (Hall r Hr) as [?|(y & Hy & Hle)]; [congruence|].
    assert (y = x) as -> by congruence.
    apply Qle_bool_iff in Hle. unfold Qpositive in Hpos. by rewrite Hle in Hpos. }
  rewrite Hnone. simpl. by eexists.
Qed.

Lemma filter_filter_andb {A} (f g : A → bool) (l : list A) :
  List.filter f (List.filter g l) = List.filter (λ x, g x && f x) l.
Proof.
  induction l as [|x l IH]; simpl; [done|].
  destruct (g x); simpl; [|done]. destruct (f x); by rewrite IH.
Qed.

Lemma list_filter_sublist {A} (f : A → bool) (l : list A) :
  List.filter f l `sublist_of` l.
Proof.
  induction l as [|x l IH]; simpl; [done|].
  destruct (f x); by constructor.
Qed.

Lemma count_dropna df : length (dropna df) + count row_has_na df = length df.
Proof.
  unfold dropna, count. rewrite <- (filter_length (λ r, negb (row_has_na r)) df).
  do 2 f_equal. apply filter_ext. intros r. by rewrite negb_involutive.
Qed.

(** The record of [row_without_category] has an amount, and a positive one,
    but line 45 drops it: the first filter does not look at the amount
    alone, and the count of survivors is not the input count less the
    records without amount and the records with a non-positive amount. *)
Lemma null_filter_is_not_amount_only :
  amount_isna (amount row_without_category) = false
  ∧ amount_positive row_without_category = true
  ∧ dropna [row_without_category] = []
  ∧ sign_filter (dropna [row_without_category]) = Return []
  ∧ length [row_without_category]
    - count (λ r, amount_isna (amount r)) [row_without_category]
    - count amount_nonpositive [row_without_category] = 1
  ∧ dropna [row_without_category]
    ≠ List.filter (λ r, negb (amount_isna (amount r))) [row_without_category].
Proof. repeat split; done. Qed.

(** C3, amended.  Line 45 keeps, in their order, exactly the records without
    a missing value in any field; and when line 48 returns, it keeps exactly
    the complete records with a strictly positive amount, whose number is
    the input count less the records with a missing value and less the
    complete records whose amount is zero or negative. *)
Theorem filter_counts df survivors :
  sign_filter (dropna df) = Return survivors →
  (∀ r, r ∈ dropna df ↔ r ∈ df ∧ row_has_na r = false)
  ∧ dropna df `sublist_of` df
  ∧ (∀ r, r ∈ survivors ↔ r ∈ dropna df ∧ amount_positive r = true)
  ∧ length survivors
    + count row_has_na df
    + count (λ r, negb (row_has_na r) && amount_nonpositive r) df
    = length df
  ∧ length survivors
    = length df - count row_has_na df
      - count (λ r, negb (row_has_na r) && amount_nonpositive r) df.
Proof.
  intros Hs. apply sign_filter_Return in Hs as [-> Hnum].
  assert (Hsum : length (List.filter amount_positive (dropna df))
    + count row_has_na df
    + count (λ r, negb (row_has_na r) && amount_nonpositive r) df
    = length df).
  { rewrite <- (count_dropna df).
    rewrite <- (filter_length amount_positive (dropna df)).
    assert (Hnp : List.filter (λ r, negb (amount_positive r)) (dropna df)
                  = List.filter amount_nonpositive (dropna df)).
    { apply filter_ext_in. intros r Hr. apply list_elem_of_In in Hr.
      rewrite Forall_forall in Hnum. specialize (Hnum r Hr).
      apply dropna_spec in Hr as [_ Hna]. unfold row_has_na in Hna.
      unfold amount_positive, amount_nonpositive, Qpositive.
      destruct (amount r) as [|x|s]; simpl in *.
      - by rewrite orb_true_r in Hna.
      - by rewrite negb_involutive.
      - by destruct (Hnum s). }
    rewrite Hnp. unfold count, dropna at 3. rewrite filter_filter_andb. lia. }
  split; [apply dropna_spec|]. split; [apply list_filter_sublist|].
  split; [|split; [done|lia]].
  intros r. by rewrite list_elem_of_In, filter_In, <- list_elem_of_In.
Qed.

(** A string in the amount column of a complete row never reaches lines
    52-53: line 48 raises [TypeError] first. *)
Lemma transform_data_string_amount df w r s :
  r ∈ dropna df → amount r = AStr s →
  ∃ w' msg, transform_data df w = (w', Raise (TypeError msg)).
Proof.
  intros Hr Hs. rewrite transform_data_eq. simpl.
  destruct (sign_filter_string _ _ _ Hr Hs) as [msg ->]. by eauto.
Qed.

(** Lines 52-53 keep the rows: as many rows as before, with the same
    transaction and product ids in the same order. *)
Lemma normalize_types_keeps_rows df out :
  normalize_types df = Return out →
  length out = length df
  ∧ map c_transaction_id out = map transaction_id df
  ∧ map c_product_id out = map product_id df.
Proof.
  intros Hn. apply normalize_types_Return in Hn.
  generalize dependent (map date df). intros column Hn.
  induction Hn as [|r c fl typed (Hid & Hk & _) _ (IH1 & IH2 & IH3)]; [done|].
  simpl. by rewrite IH1, IH2, IH3, Hid, Hk.
Qed.

(** C6, amended.  A record without missing value whose amount is a string
    does not survive the sign filter: the comparison of line 48 raises
    [TypeError], [transform_data] ends there, after its first two printed
    lines, and lines 52-53 are not reached.  Every record that survives both
    filters has a number as its amount; and lines 52-53, when they return,
    have dropped no record. *)
Theorem string_amount_stops_at_sign_filter df w :
  (∀ r s, r ∈ df → is_Some (transaction_id r) → is_Some (product_id r) →
     is_Some (date r) → is_Some (category r) → amount r = AStr s →
     ∃ msg, sign_filter (dropna df) = Raise (TypeError msg)
            ∧ transform_data df w
              = (printed [MsgTransform;
                          MsgDroppedMissing (length df - length (dropna df))] w,
                 Raise (TypeError msg)))
  ∧ (∀ survivors r, sign_filter (dropna df) = Return survivors →
       r ∈ survivors → ∃ x, amount r = ANum x)
  ∧ (∀ survivors out, normalize_types survivors = Return out →
       length out = length survivors
       ∧ map c_transaction_id out = map transaction_id survivors
       ∧ map c_product_id out = map product_id survivors).
Proof.
  split; [|split].
  - intros r s Hr [t Ht] [k Hk] [d Hd] [c Hc] Hs.
    assert (Hin : r ∈ dropna df).
    { apply dropna_spec. split; [done|]. unfold row_has_na.
      by rewrite Ht, Hk, Hd, Hs, Hc. }
    destruct (sign_filter_string _ _ _ Hin Hs) as [msg Hmsg].
    exists msg. split; [done|]. rewrite transform_data_eq. simpl.
    by rewrite Hmsg.
  - intros survivors r Hs Hr. apply sign_filter_Return in Hs as [-> _].
    fold (surviving df) in Hr.
    apply surviving_spec in Hr as (_ & _ & x & Hx & _). by exists x.
  - intros survivors out. apply normalize_types_keeps_rows.
Qed.

(** ** Extraction *)

Lemma extract_data_eq path w :
  extract_data path w =
  match fs w !! path with
  | None => (printed [MsgExtract path; MsgNotFound path] w, Return None)
  | Some (Malformed why) =>
      (printed [MsgExtract path; MsgExtractionError (OtherError why)] w,
       Return None)
  | Some (Parsed rows) =>
      (printed [MsgExtract path; MsgRead (length rows)] w, Return (Some rows))
  end.
Proof.
  destruct w. unfold extract_data, try_except, py_bind, read_csv, print, py_ret,
    printed, set_stdout. simpl.
  destruct (_ !! path) as [[rows|why]|]; simpl; by rewrite <- !app_assoc.
Qed.

(** On a missing file and on an unreadable one [extract_data] raises nothing:
    the caller receives the same [None] both times. *)
Lemma extract_data_failures_return_None :
  (extract_data CSV_FILE empty_world).2 = Return None
  ∧ (extract_data CSV_FILE malformed_world).2 = Return None
  ∧ (extract_data CSV_FILE empty_world).2 ≠ Raise (FileNotFoundError CSV_FILE)
  ∧ ∀ e, (extract_data CSV_FILE malformed_world).2 ≠ Raise e.
Proof. repeat split; done. Qed.

(** C4, amended.  [extract_data] never raises.  On a path that does not
    exist it prints the not-found line and returns [None]; on any other
    failure of [read_csv] it prints a line carrying the underlying exception
    and returns [None]; on success it returns the rows as read, in file
    order.  When [main] receives [None] it stops: nothing is transformed or
    loaded, and the world is the one [extract_data] left. *)
Theorem extract_data_outcome path w :
  (∀ e, (extract_data path w).2 ≠ Raise e)
  ∧ (fs w !! path = None →
       extract_data path w
       = (printed [MsgExtract path; MsgNotFound path] w, Return None))
  ∧ (∀ why, fs w !! path = Some (Malformed why) →
       extract_data path w
       = (printed [MsgExtract path; MsgExtractionError (OtherError why)] w,
          Return None))
  ∧ (∀ rows, fs w !! path = Some (Parsed rows) →
       extract_data path w
       = (printed [MsgExtract path; MsgRead (length rows)] w,
          Return (Some rows)))
  ∧ (is_Some (fs w !! CSV_FILE) →
       (extract_data CSV_FILE w).2 = Return None →
       main w = ((extract_data CSV_FILE w).1, Return tt)).
Proof.
  split; [|split; [|split; [|split]]].
  - intros e. rewrite extract_data_eq. by destruct (_ !! path) as [[?|?]|].
  - intros H. by rewrite extract_data_eq, H.
  - intros why H. by rewrite extract_data_eq, H.
  - intros rows H. by rewrite extract_data_eq, H.
  - intros Hfile Hnone. unfold main, py_bind, path_exists, try_except.
    rewrite bool_decide_eq_true_2 by done. unfold py_ret at 1.
    destruct (extract_data CSV_FILE w) as [w1 [[df|]|e]]; simpl in *; done.
Qed.

(** ** Loading *)

Lemma load_data_eq df path table w :
  load_data df path table w =
  match connect_fault w with
  | Some why =>
      (printed [MsgLoad path; MsgLoadError (OtherError why)] w, Return tt)
  | None =>
      let opened :=
        set_fs (create_database_file path (fs w))
          (set_open_conns (S (open_conns w)) w) in
      match write_fault w with
      | Some why =>
          (match write_fault_stage w with
           | AtDrop => id
           | AtCreate => set_db (delete (path, table) (db w))
           | AtInsert => set_db (<[(path, table) := []]> (db w))
           end
             (printed [MsgLoad path; MsgLoadError (OtherError why)] opened),
           Return tt)
      | None =>
          match read_fault w with
          | Some why =>
              (set_db (<[(path, table) := df]> (db w))
                 (printed [MsgLoad path; MsgLoaded (length df) table;
                           MsgLoadError (OtherError why)] opened),
               Return tt)
          | None =>
              (set_open_conns (open_conns w)
                 (set_db (<[(path, table) := df]> (db w))
                    (printed
                       [MsgLoad path; MsgLoaded (length df) table;
                        MsgVerification
                          (if bare_identifier table
                           then map (λ r, (s_product_id r,
                                           total_revenue_usd r)) df
                           else select_elsewhere w)]
                       opened)),
               Return tt)
          end
      end
  end.
Proof.
  destruct w as [f d n o t cf wf rf wi cw se].
  unfold load_data, try_except, py_bind, sqlite3_connect, to_sql,
    read_sql_query, conn_close, print, printed, set_stdout, set_db,
    set_open_conns, set_fs. simpl.
  destruct cf as [why|]; simpl; [by rewrite <- !app_assoc|].
  destruct wf as [why|]; simpl;
    [destruct wi; simpl; by rewrite <- !app_assoc|].
  destruct rf as [why|]; simpl; [by rewrite <- !app_assoc|].
  destruct (bare_identifier table); simpl;
    rewrite ?lookup_insert_eq; simpl; by rewrite <- !app_assoc.
Qed.


(** Whether the connection made by [load_data] is still open when it
    returns. *)
Lemma load_data_open_conns df path table w :
  open_conns (load_data df path table w).1 =
  match connect_fault w, write_fault w, read_fault w with
  | Some _, _, _ => open_conns w
  | None, None, None => open_conns w
  | None, _, _ => S (open_conns w)
  end.
Proof.
  rewrite load_data_eq.
  destruct (connect_fault w), (write_fault w), (read_fault w),
    (write_fault_stage w); by destruct w.
Qed.

(** C5, amended.  [load_data] raises nothing, whatever fails: it prints the
    exception after the lines printed so far and returns.  The table is in
    its prior state when the connection cannot be opened or when the write
    fails before the table is dropped; it no longer exists when the write
    fails after the table was dropped and before it was created again; it
    is left without rows when the write fails at the INSERT; and it holds
    the new rows when only the verification read fails. *)
Theorem load_data_failure df path table w :
  let w' := (load_data df path table w).1 in
  (load_data df path table w).2 = Return tt
  ∧ (∀ why, connect_fault w = Some why →
       stdout w' = (stdout w ++ [MsgLoad path; MsgLoadError (OtherError why)])%list
       ∧ db w' = db w)
  ∧ (∀ why, connect_fault w = None → write_fault w = Some why →
       stdout w' = (stdout w ++ [MsgLoad path; MsgLoadError (OtherError why)])%list
       ∧ db w' = match write_fault_stage w with
                 | AtDrop => db w
                 | AtCreate => delete (path, table) (db w)
                 | AtInsert => <[(path, table) := []]> (db w)
                 end)
  ∧ (∀ why, connect_fault w = None → write_fault w = None →
       read_fault w = Some why →
       stdout w' = (stdout w ++ [MsgLoad path; MsgLoaded (length df) table;
                                 MsgLoadError (OtherError why)])%list
       ∧ db w' = <[(path, table) := df]> (db w)).
Proof.
  simpl. rewrite load_data_eq. split; [|split; [|split]].
  - by destruct (connect_fault w), (write_fault w), (read_fault w).
  - intros why ->. by destruct w.
  - intros why -> ->. by destruct w as [f d n o t cf wf rf [] cw se].
  - intros why -> -> ->. by destruct w.
Qed.


(** C9, as the code runs.  The connection is closed when every step
    succeeds, but a load whose write or whose verification read fails
    returns with the connection it opened still open. *)
Theorem load_data_leaves_connection_open :
  open_conns write_failure_world = 0
  ∧ open_conns
      (load_data sample_summary DB_FILE TABLE_NAME write_failure_world).1 = 1
  ∧ open_conns
      (load_data sample_summary DB_FILE TABLE_NAME read_failure_world).1 = 1
  ∧ open_conns (load_data sample_summary DB_FILE TABLE_NAME empty_world).1 = 0.
Proof. repeat split; done. Qed.

(** * Further properties of the pipeline *)

(** ** What the transform touches *)

(** [transform_data] prints and may read the clock; it leaves the file
    system, the database and the connections alone, whether it returns or
    raises, and what was printed before stays printed. *)
Theorem transform_data_only_prints df w :
  let w' := (transform_data df w).1 in
  fs w' = fs w ∧ db w' = db w ∧ open_conns w' = open_conns w
  ∧ stdout w `prefix_of` stdout w'.
Proof.
  simpl. rewrite transform_data_eq. simpl.
  destruct (sign_filter (dropna df)) as [fl|e]; [|destruct w; simpl].
  - destruct (normalize_types fl) as [typed|e]; destruct w; simpl;
      repeat split; by eexists.
  - repeat split; by eexists.
Qed.

(** ** When the transform raises *)

Lemma sign_filter_Raise df e :
  sign_filter df = Raise e →
  (∃ msg, e = TypeError msg) ∧ ∃ r s, r ∈ df ∧ amount r = AStr s.
Proof.
  unfold sign_filter. intros H.
  destruct (traverse gt_zero (map amount df)) as [mask|e'] eqn:Ht;
    simpl in H; [done|]. injection H as ->.
  apply traverse_Raise in Ht as (a & Hin & Ha).
  apply list_elem_of_fmap in Hin as (r & -> & Hr).
  destruct (amount r) as [|x|s] eqn:Hs; simpl in Ha; try done.
  injection Ha as <-. split; [by eexists|]. by exists r, s.
Qed.

(** After the two filters only the dates can make lines 52-53 raise. *)
Lemma normalize_types_surviving_Raise df e :
  normalize_types (surviving df) = Raise e →
  ∃ r s, r ∈ surviving df ∧ date r = Some s
         ∧ parse_datetime (map date (surviving df)) s = None.
Proof.
  unfold normalize_types, to_datetime, to_numeric. intros H.
  destruct (traverse (to_datetime_cell (map date (surviving df)))
              (map date (surviving df))) as [dates|e1] eqn:Hd; simpl in H.
  - destruct (traverse to_numeric_cell (map amount (surviving df)))
      as [amounts|e2] eqn:Ha; simpl in H; [done|]. exfalso.
    apply traverse_Raise in Ha as (a & Hin & Ha).
    apply list_elem_of_fmap in Hin as (r & -> & Hr).
    apply surviving_spec in Hr as (_ & _ & x & Hx & _).
    by rewrite Hx in Ha.
  - apply traverse_Raise in Hd as (c & Hin & Hc).
    apply list_elem_of_fmap in Hin as (r & -> & Hr).
    destruct (date r) as [s|] eqn:Hs; simpl in Hc; [|done].
    destruct (parse_datetime _ s) eqn:Hp; [done|]. by exists r, s.
Qed.

(** [transform_data] raises [TypeError] exactly when a row without missing
    value has a string as its amount; rows that [dropna] removes cannot
    cause it. *)
Theorem transform_data_TypeError_iff df w :
  (∃ w' msg, transform_data df w = (w', Raise (TypeError msg)))
  ↔ ∃ r s, r ∈ dropna df ∧ amount r = AStr s.
Proof.
  split.
  - intros (w' & msg & H). rewrite transform_data_eq in H. simpl in H.
    destruct (sign_filter (dropna df)) as [fl|e] eqn:Hs.
    + destruct (normalize_types fl) as [typed|e] eqn:Hn; [done|].
      apply normalize_types_Raise in Hn as [msg' ->]. congruence.
    + by apply sign_filter_Raise in Hs as [_ ?].
  - intros (r & s & Hr & Hs). by eapply transform_data_string_amount.
Qed.

(** [transform_data] returns exactly when no row without missing value has
    a string as its amount and [to_datetime], applied to the date column of
    the rows that pass both filters, can read every date of that column. *)
Theorem transform_data_returns_iff df w :
  (∃ w' out, transform_data df w = (w', Return out))
  ↔ (∀ r s, r ∈ dropna df → amount r ≠ AStr s)
    ∧ (∀ r s, r ∈ surviving df → date r = Some s →
         is_Some (parse_datetime (map date (surviving df)) s)).
Proof.
  split.
  - intros (w' & out & H).
    apply transform_data_Return in H as (typed & Hs & Hn & _).
    apply sign_filter_Return in Hs as [_ Hnum].
    apply normalize_types_Return in Hn. split.
    + intros r s Hr. rewrite Forall_forall in Hnum. by apply Hnum.
    + intros r s Hr Hdate. apply list_elem_of_lookup in Hr as [i Hi].
      destruct (Forall2_lookup_l _ _ _ _ _ Hn Hi) as (c & _ & Hc).
      destruct Hc as (_ & _ & Hd & _). rewrite Hdate in Hd. simpl in Hd.
      by destruct (parse_datetime _ s).
  - intros [Hnum Hdate]. apply transform_data_returns.
    + apply Forall_forall. intros r Hr s. by apply Hnum.
    + apply Forall_forall. intros r Hr s. by apply Hdate.
Qed.

(** [transform_data] raises [ValueError] exactly when line 48 passes and
    [to_datetime], applied to the date column of the rows that pass both
    filters, cannot read some date of that column; an unreadable date in a
    row that is filtered out does no harm. *)
Theorem transform_data_ValueError_iff df w :
  (∃ w' msg, transform_data df w = (w', Raise (ValueError msg)))
  ↔ (∀ r s, r ∈ dropna df → amount r ≠ AStr s)
    ∧ ∃ r s, r ∈ surviving df ∧ date r = Some s
             ∧ parse_datetime (map date (surviving df)) s = None.
Proof.
  split.
  - intros (w' & msg & H). rewrite transform_data_eq in H. simpl in H.
    destruct (sign_filter (dropna df)) as [fl|e] eqn:Hs.
    + apply sign_filter_Return in Hs as [-> Hnum]. fold (surviving df) in H.
      split; [intros r s Hr; rewrite Forall_forall in Hnum; by apply Hnum|].
      destruct (normalize_types (surviving df)) as [typed|e] eqn:Hn; [done|].
      by eapply normalize_types_surviving_Raise.
    + apply sign_filter_Raise in Hs as [[msg' ->] _]. congruence.
  - intros (Hnum & r & s & Hr & Hdate & Hparse).
    rewrite transform_data_eq. simpl.
    rewrite (sign_filter_numeric (dropna df))
      by (apply Forall_forall; intros r' Hr' s'; by apply Hnum).
    fold (surviving df).
    destruct (normalize_types (surviving df)) as [typed|e] eqn:Hn.
    + exfalso. apply normalize_types_Return in Hn.
      apply list_elem_of_lookup in Hr as [i Hi].
      destruct (Forall2_lookup_l _ _ _ _ _ Hn Hi) as (c & _ & Hc).
      destruct Hc as (_ & _ & Hd & _). rewrite Hdate in Hd. simpl in Hd.
      by rewrite Hparse in Hd.
    + apply normalize_types_Raise in Hn as [msg ->]. by eauto.
Qed.

(** ** What the transform prints and stamps *)

Lemma count_nonpositive_dropna df :
  Forall (λ r, ∀ s, amount r ≠ AStr s) (dropna df) →
  length (surviving df)
  + count (λ r, negb (row_has_na r) && amount_nonpositive r) df
  = length (dropna df).
Proof.
  intros Hnum. unfold surviving.
  rewrite <- (filter_length amount_positive (dropna df)). f_equal.
  assert (Hnp : List.filter (λ r, negb (amount_positive r)) (dropna df)
                = List.filter amount_nonpositive (dropna df)).
  { apply filter_ext_in. intros r Hr.
    apply list_elem_of_In in Hr. rewrite Forall_forall in Hnum.
    specialize (Hnum r Hr). apply dropna_spec in Hr as [_ Hna].
    unfold row_has_na in Hna.
    unfold amount_positive, amount_nonpositive, Qpositive.
    destruct (amount r) as [|x|s]; simpl in *.
    - by rewrite orb_true_r in Hna.
    - by rewrite negb_involutive.
    - by destruct (Hnum s). }
  rewrite Hnp. unfold count, dropna. by rewrite filter_filter_andb.
Qed.

(** The lines printed by a transform that returns report what happened: the
    number of rows with a missing value, the number of complete rows whose
    amount is zero or negative, and the number of rows of the result. *)
Theorem transform_data_log df w w' out :
  transform_data df w = (w', Return out) →
  stdout w'
  = (stdout w
     ++ [MsgTransform;
         MsgDroppedMissing (count row_has_na df);
         MsgDroppedNonPositive
           (count (λ r, negb (row_has_na r) && amount_nonpositive r) df);
         MsgTransformed (length out)])%list.
Proof.
  intros H. rewrite transform_data_eq in H. simpl in H.
  destruct (sign_filter (dropna df)) as [fl|e] eqn:Hs; [|done].
  apply sign_filter_Return in Hs as [-> Hnum]. fold (surviving df) in H.
  destruct (normalize_types (surviving df)) as [typed|e]; [|done].
  injection H as <- <-. rewrite length_map.
  pose proof (count_dropna df). pose proof (count_nonpositive_dropna df Hnum).
  destruct w; simpl. do 3 f_equal; [f_equal; lia|]. do 2 f_equal. lia.
Qed.

(** The clock is read once: every row of the result carries the time at
    which [transform_data] was called, and the clock has moved on. *)
Theorem transform_data_stamp df w w' out :
  transform_data df w = (w', Return out) →
  Forall (λ row, processed_at row = clock w) out
  ∧ clock w' = (clock w + 1)%Z.
Proof.
  intros H. split.
  - apply Forall_forall. intros row Hrow.
    by apply (transform_data_rows _ _ _ _ _ H) in Hrow as (_ & _ & ?).
  - rewrite transform_data_eq in H. simpl in H.
    destruct (sign_filter (dropna df)) as [fl|e]; [|done].
    destruct (normalize_types fl) as [typed|e]; [|done].
    injection H as <- _. by destruct w.
Qed.

(** ** The rows of the result *)

Lemma remove_dups_length_le {A} `{EqDecision A} (l : list A) :
  (length (remove_dups l) ≤ length l)%nat.
Proof.
  induction l as [|x l IH]; simpl; [done|]. case_decide; simpl; lia.
Qed.

Lemma omap_length_le {A B} (f : A → option B) (l : list A) :
  (length (omap f l) ≤ length l)%nat.
Proof.
  induction l as [|x l IH]; csimpl; [done|]. destruct (f x); simpl; lia.
Qed.

(** The result has one row for each distinct product id of the rows that
    pass the filters, hence no more rows than the input. *)
Theorem transform_data_row_count df w w' out :
  transform_data df w = (w', Return out) →
  length out = length (remove_dups (omap product_id (surviving df)))
  ∧ (length out ≤ length df)%nat.
Proof.
  intros H.
  assert (Hperm : map s_product_id out
                  ≡ₚ remove_dups (omap product_id (surviving df))).
  { apply NoDup_Permutation.
    - destruct (transform_data_keys _ _ _ _ H) as (typed & _ & ->).
      apply groupby_sum_keys_NoDup.
    - apply NoDup_remove_dups.
    - intros P. rewrite elem_of_remove_dups, list_elem_of_omap.
      rewrite list_elem_of_fmap. split.
      + intros (row & -> & Hrow).
        apply (transform_data_rows _ _ _ _ _ H) in Hrow as (HP & _).
        apply list_elem_of_fmap in HP as (r & HP & Hr). by exists r.
      + intros (r & Hr & HP).
        exists (mkSummary P (amount_sum (amounts_of P (surviving df)))
                  (clock w)).
        split; [done|]. apply (transform_data_rows _ _ _ _ _ H). simpl.
        repeat split; try done. apply list_elem_of_fmap. by exists r. }
  assert (Hlen : length out
                 = length (remove_dups (omap product_id (surviving df)))).
  { rewrite <- Hperm. by rewrite length_map. }
  split; [done|]. rewrite Hlen.
  pose proof (remove_dups_length_le (omap product_id (surviving df))).
  pose proof (omap_length_le product_id (surviving df)).
  pose proof (filter_length_le amount_positive (dropna df)).
  pose proof (filter_length_le (λ r, negb (row_has_na r)) df).
  unfold surviving, dropna in *. lia.
Qed.

(** ** Rows that do not pass the filters *)




(** ** Frames put together and frames reordered *)








(** ** Extraction and loading, field by field *)

Lemma load_data_returns df path table w :
  (load_data df path table w).2 = Return tt.
Proof.
  rewrite load_data_eq.
  by destruct (connect_fault w), (write_fault w), (read_fault w).
Qed.

Lemma create_database_file_other path p files :
  p ≠ path → create_database_file path files !! p = files !! p.
Proof.
  intros Hne. unfold create_database_file.
  destruct (files !! path); [done|]. by rewrite lookup_insert_ne.
Qed.

Lemma load_data_world df path table w :
  let w' := (load_data df path table w).1 in
  (∀ p, p ≠ path → fs w' !! p = fs w !! p)
  ∧ clock w' = clock w
  ∧ ∀ k, k ≠ (path, table) → db w' !! k = db w !! k.
Proof.
  simpl. rewrite load_data_eq.
  destruct (connect_fault w), (write_fault w), (read_fault w),
    (write_fault_stage w); destruct w; simpl;
    repeat split; try done;
    try (intros p Hp; by apply create_database_file_other);
    intros k Hk; first [by rewrite lookup_insert_ne | by rewrite lookup_delete_ne].
Qed.



(** ** The driver *)

Lemma transform_data_world df w :
  let w' := (transform_data df w).1 in
  fs w' = fs w ∧ db w' = db w ∧ open_conns w' = open_conns w
  ∧ connect_fault w' = connect_fault w ∧ write_fault w' = write_fault w
  ∧ read_fault w' = read_fault w
  ∧ write_fault_stage w' = write_fault_stage w.
Proof.
  simpl. rewrite transform_data_eq. simpl.
  destruct (sign_filter (dropna df)) as [fl|e]; [|by destruct w].
  destruct (normalize_types fl) as [typed|e]; by destruct w.
Qed.

(** [main] on a world whose input file can be read. *)
Lemma main_Parsed df w :
  fs w !! CSV_FILE = Some (Parsed df) →
  main w =
  match transform_data df
          (printed [MsgExtract CSV_FILE; MsgRead (length df)] w) with
  | (w2, Raise e) => (printed [MsgFatal e] w2, Return tt)
  | (w2, Return out) =>
      (printed [MsgComplete] (load_data out DB_FILE TABLE_NAME w2).1, Return tt)
  end.
Proof.
  intros Hfile. unfold main, py_bind, path_exists, try_except.
  rewrite bool_decide_eq_true_2 by (by rewrite Hfile). unfold py_ret at 1.
  rewrite extract_data_eq, Hfile.
  destruct (transform_data df _) as [w2 [out|e]]; [|done].
  pose proof (load_data_returns out DB_FILE TABLE_NAME w2) as Hret.
  destruct (load_data out DB_FILE TABLE_NAME w2) as [w3 r3]. simpl in Hret.
  by subst.
Qed.

(** [main] on a world whose input file cannot be read. *)
Lemma main_Malformed why w :
  fs w !! CSV_FILE = Some (Malformed why) →
  main w
  = (printed [MsgExtract CSV_FILE; MsgExtractionError (OtherError why)] w,
     Return tt).
Proof.
  intros Hfile. unfold main, py_bind, path_exists, try_except.
  rewrite bool_decide_eq_true_2 by (by rewrite Hfile). unfold py_ret at 1.
  by rewrite extract_data_eq, Hfile.
Qed.

(** [main] on a world without input file, when the mock data can be
    written: the run goes on as if the file had been there. *)
Lemma main_missing w :
  fs w !! CSV_FILE = None → csv_write_fault w = None →
  main w
  = main (set_fs (<[CSV_FILE := Parsed mock_data]> (fs w))
            (printed [MsgGenerating CSV_FILE; MsgGenerated] w)).
Proof.
  intros Hfile Hcsv.
  assert (Hgen : generate_mock_data w
                 = (set_fs (<[CSV_FILE := Parsed mock_data]> (fs w))
                      (printed [MsgGenerating CSV_FILE; MsgGenerated] w),
                    Return tt)).
  { destruct w. simpl in Hcsv. subst.
    unfold generate_mock_data, py_bind, print, to_csv, printed,
      set_stdout, set_fs. simpl. by rewrite <- app_assoc. }
  unfold main at 1. unfold py_bind at 1. unfold path_exists at 1.
  rewrite bool_decide_eq_false_2 by (rewrite Hfile; by intros [? ?]).
  unfold py_bind at 1. rewrite Hgen. symmetry.
  unfold main at 1. unfold py_bind at 1. unfold path_exists at 1.
  rewrite bool_decide_eq_true_2
    by (destruct w; simpl; rewrite lookup_insert_eq; by eexists).
  unfold py_bind at 1. by unfold py_ret at 1.
Qed.

(** [main] on a world without input file, when the mock data cannot be
    written: the exception of [to_csv] is raised outside the [try] of
    [main], so [main] raises it. *)
Lemma main_missing_fault w why :
  fs w !! CSV_FILE = None → csv_write_fault w = Some why →
  main w = (printed [MsgGenerating CSV_FILE] w, Raise (OtherError why)).
Proof.
  intros Hfile Hcsv.
  unfold main. unfold py_bind at 1. unfold path_exists.
  rewrite bool_decide_eq_false_2 by (rewrite Hfile; by intros [? ?]).
  unfold py_bind at 1.
  destruct w. simpl in Hcsv. subst.
  unfold generate_mock_data, py_bind, print, to_csv, printed, set_stdout.
  by simpl.
Qed.


(** [main] on a world whose input file exists: it returns, no file other
    than the database file is touched, and only the target table can have
    changed. *)
Lemma main_existing w :
  is_Some (fs w !! CSV_FILE) →
  (main w).2 = Return tt
  ∧ (∀ p, p ≠ DB_FILE → fs (main w).1 !! p = fs w !! p)
  ∧ ∀ k, k ≠ (DB_FILE, TABLE_NAME) → db (main w).1 !! k = db w !! k.
Proof.
  intros [[df|why] Hfile].
  - rewrite (main_Parsed df w Hfile).
    pose proof (transform_data_world df
                  (printed [MsgExtract CSV_FILE; MsgRead (length df)] w))
      as (Hfs & Hdb & _). simpl in Hfs, Hdb.
    destruct (transform_data df _) as [w2 [out|e]]; simpl in *.
    + destruct (load_data_world out DB_FILE TABLE_NAME w2)
        as (Hfs' & _ & Hdb'). simpl in Hfs', Hdb'.
      split; [done|]. unfold printed, set_stdout. simpl. split.
      * intros p Hp. rewrite (Hfs' p Hp), Hfs. by destruct w.
      * intros k Hk. rewrite (Hdb' k Hk), Hdb. by destruct w.
    + split; [done|]. unfold printed, set_stdout. simpl.
      rewrite Hfs, Hdb. by destruct w.
  - rewrite (main_Malformed why w Hfile). by destruct w.
Qed.


(** In every world [main] leaves all tables but the target table as they
    were; and when the input file exists it returns normally, whatever
    fails in the stages. *)
Theorem main_other_tables w :
  (∀ file name, (file, name) ≠ (DB_FILE, TABLE_NAME) →
     db (main w).1 !! (file, name) = db w !! (file, name))
  ∧ (is_Some (fs w !! CSV_FILE) → (main w).2 = Return tt).
Proof.
  split; [|by intros H; apply main_existing].
  intros file name Hne.
  destruct (fs w !! CSV_FILE) as [c|] eqn:Hfile.
  - by apply main_existing; [rewrite Hfile; eexists|].
  - destruct (csv_write_fault w) as [why|] eqn:Hfault.
    + rewrite (main_missing_fault w why Hfile Hfault). by destruct w.
    + rewrite (main_missing w Hfile Hfault).
      destruct (main_existing
                  (set_fs (<[CSV_FILE := Parsed mock_data]> (fs w))
                     (printed [MsgGenerating CSV_FILE; MsgGenerated] w)))
        as (_ & _ & ->); [| done | by destruct w].
      destruct w; simpl. rewrite lookup_insert_eq. by eexists.
Qed.

Lemma transform_data_Raise_world df v w e :
  (transform_data df v).2 = Raise e → (transform_data df w).2 = Raise e.
Proof.
  rewrite !transform_data_eq. simpl.
  destruct (sign_filter (dropna df)) as [fl|e']; [|done].
  by destruct (normalize_types fl).
Qed.

(** An exception of the transform is fatal for the run: [main] prints it
    as its last line and returns, nothing is loaded and no connection is
    opened. *)
Theorem main_transform_failure df v w e :
  fs w !! CSV_FILE = Some (Parsed df) →
  (transform_data df v).2 = Raise e →
  (main w).2 = Return tt
  ∧ last (stdout (main w).1) = Some (MsgFatal e)
  ∧ db (main w).1 = db w
  ∧ open_conns (main w).1 = open_conns w.
Proof.
  intros Hfile Hraise. rewrite (main_Parsed df w Hfile).
  apply (transform_data_Raise_world _ _
           (printed [MsgExtract CSV_FILE; MsgRead (length df)] w)) in Hraise.
  pose proof (transform_data_world df
                (printed [MsgExtract CSV_FILE; MsgRead (length df)] w))
    as (_ & Hdb & Hconn & _). simpl in Hdb, Hconn.
  destruct (transform_data df _) as [w2 [out|e']]; simpl in *; [done|].
  injection Hraise as ->. split; [done|]. split; [apply last_snoc|].
  rewrite Hdb, Hconn. by destruct w.
Qed.

(** A run in which every stage succeeds: the target table holds exactly the
    frame returned by the transform, the connection is closed again, and
    the completion line is the last one printed. *)
Theorem main_success df w out :
  fs w !! CSV_FILE = Some (Parsed df) →
  connect_fault w = None → write_fault w = None → read_fault w = None →
  (transform_data df (extract_data CSV_FILE w).1).2 = Return out →
  (main w).2 = Return tt
  ∧ last (stdout (main w).1) = Some MsgComplete
  ∧ db (main w).1 = <[(DB_FILE, TABLE_NAME) := out]> (db w)
  ∧ open_conns (main w).1 = open_conns w.
Proof.
  intros Hfile Hc Hw Hr Hout. rewrite (main_Parsed df w Hfile).
  rewrite extract_data_eq, Hfile in Hout. simpl in Hout.
  pose proof (transform_data_world df
                (printed [MsgExtract CSV_FILE; MsgRead (length df)] w))
    as (_ & Hdb & Hconn & Hc' & Hw' & Hr' & _). simpl in *.
  destruct (transform_data df _) as [w2 [out'|e']]; simpl in *; [|done].
  injection Hout as ->. rewrite load_data_eq.
  rewrite Hc', Hw', Hr'. simpl. rewrite Hc, Hw, Hr. simpl.
  split; [done|]. split; [apply last_snoc|].
  rewrite Hdb, Hconn. by destruct w.
Qed.

(** A failure of the load does not stop [main] either: the error line is
    followed by the completion line, and [main] returns normally. *)
Theorem main_load_failure df w out why :
  fs w !! CSV_FILE = Some (Parsed df) →
  (transform_data df (extract_data CSV_FILE w).1).2 = Return out →
  connect_fault w = Some why
  ∨ (connect_fault w = None ∧ write_fault w = Some why)
  ∨ (connect_fault w = None ∧ write_fault w = None
     ∧ read_fault w = Some why) →
  (main w).2 = Return tt
  ∧ ∃ before, stdout (main w).1
              = (before ++ [MsgLoadError (OtherError why); MsgComplete])%list.
Proof.
  intros Hfile Hout Hfault. rewrite (main_Parsed df w Hfile).
  rewrite extract_data_eq, Hfile in Hout. simpl in Hout.
  pose proof (transform_data_world df
                (printed [MsgExtract CSV_FILE; MsgRead (length df)] w))
    as (_ & _ & _ & Hc' & Hw' & Hr' & _). simpl in *.
  destruct (transform_data df _) as [w2 [out'|e']]; simpl in *; [|done].
  injection Hout as ->. split; [done|]. rewrite load_data_eq.
  rewrite Hc', Hw', Hr'. simpl.
  destruct Hfault as [->|[[-> ->]|(-> & -> & ->)]];
    destruct w2 as [f d n printed_so_far t cf wf rf wi cw se]; simpl.
  - exists (printed_so_far ++ [MsgLoad DB_FILE])%list.
    by rewrite <- !app_assoc.
  - exists (printed_so_far ++ [MsgLoad DB_FILE])%list.
    destruct wi; simpl; by rewrite <- !app_assoc.
  - exists (printed_so_far
            ++ [MsgLoad DB_FILE; MsgLoaded (length out) TABLE_NAME])%list.
    by rewrite <- !app_assoc.
Qed.

(** ** The columns the result depends on *)







End Pipeline.

(** * The model at work on sample data *)

Abbreviation sample_transform :=
  (transform_data sample_parse_datetime sample_parse_number Qsum).
Abbreviation sample_main :=
  (main sample_parse_datetime sample_parse_number Qsum).

(** The run of section 8 of the specification: ten rows in, four out. *)
Example mock_data_totals :
  map (λ row, (s_product_id row, Qred (total_revenue_usd row)))
      (returned [] (sample_transform mock_data empty_world).2)
  = [("P101", 31%Q); ("P102", 60%Q); ("P103", Qred 101.98%Q); ("P105", 5%Q)].
Proof. vm_compute. reflexivity. Qed.

(** The format of a date column follows its first value: each of the two
    dates is read when it stands alone, and the same two rows are refused
    in one order and transformed in the other. *)
Example date_format_follows_first_value :
  sample_parse_datetime [Some "2024-09-01"] "2024-09-01" = Some 20240901%Z
  ∧ sample_parse_datetime [Some "September 2024"] "September 2024"
    = Some 20240901%Z
  ∧ (∃ msg, (sample_transform iso_then_month_input empty_world).2
            = Raise (ValueError msg))
  ∧ map s_product_id
      (returned [] (sample_transform month_then_iso_input empty_world).2)
    = ["P1"; "P2"].
Proof.
  split; [reflexivity|]. split; [reflexivity|].
  split; [eexists; reflexivity | vm_compute; reflexivity].
Qed.

(** A table name of two words is written as one table and read back as
    another: the verification shows rows that were not loaded. *)
Example unquoted_table_name_reads_elsewhere :
  bare_identifier "old new" = false
  ∧ bare_identifier "Order" = false
  ∧ bare_identifier TABLE_NAME = true
  ∧ stdout (load_data sample_summary DB_FILE "old new" other_table_world).1
    = [MsgLoad DB_FILE; MsgLoaded 2 "old new";
       MsgVerification [("P900", 1%Q)]].
Proof. repeat split; vm_compute; reflexivity. Qed.

(** ** Where the code departs from the specification *)


(** A product with a strictly positive amount that has no output row: the
    only record of [P1] lacks a category. *)
Lemma null_category_product_omitted :
  row_without_category ∈ [row_without_category]
  ∧ product_id row_without_category = Some "P1"
  ∧ (∃ x, amount row_without_category = ANum x ∧ (0 < x)%Q)
  ∧ map s_product_id
      (returned [mkSummary "P1" 5 1000]
         (sample_transform [row_without_category] empty_world).2)
    = [].
Proof.
  split; [left|]. split; [reflexivity|]. split.
  - exists 5%Q. split; reflexivity.
  - vm_compute. reflexivity.
Qed.

(** A record whose amount is the text [abc] and that has no missing value:
    the transform does not raise [ValueError] at the conversion of lines
    52-53, it raises [TypeError] at the comparison of line 48. *)
Lemma text_amount_raises_TypeError :
  row_has_na (mock_row 1 "P101" "2024-09-01" (AStr "abc") "Gadget") = false
  ∧ sample_parse_number "abc" = None
  ∧ sign_filter (dropna text_amount_input)
    = Raise (TypeError "'>' not supported between instances of 'str' and 'int'")
  ∧ (sample_transform text_amount_input empty_world).2
    = Raise (TypeError "'>' not supported between instances of 'str' and 'int'")
  ∧ ∀ msg, (sample_transform text_amount_input empty_world).2
           ≠ Raise (ValueError msg).
Proof. repeat split; try done; vm_compute; reflexivity. Qed.

(** A load whose verification read fails: [load_data] returns as after a
    success although the table is no longer in the state it had before; a
    write that fails at the CREATE leaves no table, and one that fails at
    the INSERT leaves the table without the rows it had; a failed write is
    not raised to the caller either, and [main] goes on to print its
    completion line after the error. *)
Lemma failed_load_returns_normally :
  (load_data sample_summary DB_FILE TABLE_NAME read_failure_world).2 = Return tt
  ∧ db read_failure_world !! (DB_FILE, TABLE_NAME) = None
  ∧ db (load_data sample_summary DB_FILE TABLE_NAME read_failure_world).1
      !! (DB_FILE, TABLE_NAME) = Some sample_summary
  ∧ db insert_failure_world !! (DB_FILE, TABLE_NAME)
    = Some [mkSummary "P102" 60 900]
  ∧ db (load_data sample_summary DB_FILE TABLE_NAME insert_failure_world).1
      !! (DB_FILE, TABLE_NAME) = Some []
  ∧ db create_failure_world !! (DB_FILE, TABLE_NAME)
    = Some [mkSummary "P102" 60 900]
  ∧ db (load_data sample_summary DB_FILE TABLE_NAME create_failure_world).1
      !! (DB_FILE, TABLE_NAME) = None
  ∧ (∀ e, (load_data sample_summary DB_FILE TABLE_NAME write_failure_world).2
          ≠ Raise e)
  ∧ (sample_main write_failure_world).2 = Return tt
  ∧ take 2 (reverse (stdout (sample_main write_failure_world).1))
    = [MsgComplete;
       MsgLoadError (OtherError "attempt to write a readonly database")].
Proof. repeat split; try done; vm_compute; reflexivity. Qed.

(** ** The claims at work *)


Lemma output_products_complete_witness :
  sample_transform mock_data empty_world
  = ((sample_transform mock_data empty_world).1,
     Return (returned [] (sample_transform mock_data empty_world).2))
  ∧ NoDup (map s_product_id
             (returned [] (sample_transform mock_data empty_world).2))
  ∧ ∀ P, P ∈ map s_product_id
               (returned [] (sample_transform mock_data empty_world).2)
         ↔ ∃ r, r ∈ mock_data ∧ counts_for P r.
Proof.
  assert (Hrun : sample_transform mock_data empty_world
                 = ((sample_transform mock_data empty_world).1,
                    Return (returned [] (sample_transform mock_data empty_world).2)))
    by (vm_compute; reflexivity).
  split; [exact Hrun|].
  exact (output_products_complete sample_parse_datetime sample_parse_number
           Qsum _ _ _ _ Hrun).
Defined.

Lemma output_sorted_by_product_id_witness :
  sample_transform mock_data empty_world
  = ((sample_transform mock_data empty_world).1,
     Return (returned [] (sample_transform mock_data empty_world).2))
  ∧ sample_transform mock_data mock_world
    = ((sample_transform mock_data mock_world).1,
       Return (returned [] (sample_transform mock_data mock_world).2))
  ∧ sample_transform descending_input empty_world
    = ((sample_transform descending_input empty_world).1,
       Return (returned [] (sample_transform descending_input empty_world).2))
  ∧ StronglySorted (λ a b, String.ltb a b = true)
      (map s_product_id (returned [] (sample_transform mock_data empty_world).2))
  ∧ map (λ row, (s_product_id row, total_revenue_usd row))
        (returned [] (sample_transform mock_data mock_world).2)
    = map (λ row, (s_product_id row, total_revenue_usd row))
        (returned [] (sample_transform mock_data empty_world).2)
  ∧ map s_product_id
        (returned [] (sample_transform descending_input empty_world).2)
    = ["P1"; "P2"].
Proof.
  assert (Hrun : sample_transform mock_data empty_world
                 = ((sample_transform mock_data empty_world).1,
                    Return (returned [] (sample_transform mock_data empty_world).2)))
    by (vm_compute; reflexivity).
  assert (Hrun' : sample_transform mock_data mock_world
                  = ((sample_transform mock_data mock_world).1,
                     Return (returned [] (sample_transform mock_data mock_world).2)))
    by (vm_compute; reflexivity).
  assert (Hdesc : sample_transform descending_input empty_world
                  = ((sample_transform descending_input empty_world).1,
                     Return (returned []
                               (sample_transform descending_input empty_world).2)))
    by (vm_compute; reflexivity).
  destruct (output_sorted_by_product_id _ _ _ _ _ _ _ Hrun)
    as (Hsorted & Hsame & Horder).
  do 4 (split; [assumption|]).
  split; [exact (Hsame _ _ _ Hrun')|].
  exact (proj1 (Horder _ _ _ Hdesc)).
Defined.

Lemma empty_after_filtering_witness :
  (∀ r, r ∈ rejected_input →
        amount r = ANull ∨ ∃ x, amount r = ANum x ∧ (x <= 0)%Q)
  ∧ ∃ w', sample_transform rejected_input empty_world = (w', Return []).
Proof.
  assert (H : ∀ r, r ∈ rejected_input →
                amount r = ANull ∨ ∃ x, amount r = ANum x ∧ (x <= 0)%Q).
  { intros r Hr. unfold rejected_input in Hr.
    repeat (apply elem_of_cons in Hr as [->|Hr]);
      [right; eexists; split; [reflexivity|vm_compute; discriminate]
      |left; reflexivity
      |right; eexists; split; [reflexivity|vm_compute; discriminate]
      |by apply elem_of_nil in Hr]. }
  split; [exact H|].
  exact (empty_after_filtering _ _ _ rejected_input empty_world H).
Defined.

Lemma filter_counts_witness :
  sign_filter (dropna mock_data)
  = Return (returned [] (sign_filter (dropna mock_data)))
  ∧ length (returned [] (sign_filter (dropna mock_data)))
    = length mock_data - count row_has_na mock_data
      - count (λ r, negb (row_has_na r) && amount_nonpositive r) mock_data.
Proof.
  assert (Hs : sign_filter (dropna mock_data)
               = Return (returned [] (sign_filter (dropna mock_data))))
    by (vm_compute; reflexivity).
  split; [exact Hs|].
  exact (proj2 (proj2 (proj2 (proj2 (filter_counts mock_data _ Hs))))).
Defined.

Lemma string_amount_stops_at_sign_filter_witness :
  mock_row 1 "P101" "2024-09-01" (AStr "abc") "Gadget" ∈ text_amount_input
  ∧ sign_filter (dropna mock_data)
    = Return (returned [] (sign_filter (dropna mock_data)))
  ∧ normalize_types sample_parse_datetime sample_parse_number
      (surviving mock_data)
    = Return (returned [] (normalize_types sample_parse_datetime
                             sample_parse_number (surviving mock_data)))
  ∧ (∃ msg,
       sign_filter (dropna text_amount_input) = Raise (TypeError msg)
       ∧ sample_transform text_amount_input empty_world
         = (printed [MsgTransform;
                     MsgDroppedMissing (length text_amount_input
                                        - length (dropna text_amount_input))]
              empty_world,
            Raise (TypeError msg)))
  ∧ (∀ r, r ∈ returned [] (sign_filter (dropna mock_data)) →
          ∃ x, amount r = ANum x)
  ∧ length (returned [] (normalize_types sample_parse_datetime
                           sample_parse_number (surviving mock_data)))
    = length (surviving mock_data).
Proof.
  assert (Hin : mock_row 1 "P101" "2024-09-01" (AStr "abc") "Gadget"
                ∈ text_amount_input) by (unfold text_amount_input; left).
  assert (Hs : sign_filter (dropna mock_data)
               = Return (returned [] (sign_filter (dropna mock_data))))
    by (vm_compute; reflexivity).
  assert (Hok : normalize_types sample_parse_datetime sample_parse_number
                  (surviving mock_data)
                = Return (returned [] (normalize_types sample_parse_datetime
                                         sample_parse_number
                                         (surviving mock_data))))
    by (vm_compute; reflexivity).
  split; [exact Hin|]. split; [exact Hs|]. split; [exact Hok|].
  split; [|split].
  - exact (proj1 (string_amount_stops_at_sign_filter sample_parse_datetime
                    sample_parse_number Qsum text_amount_input empty_world)
             _ "abc" Hin (ex_intro _ _ eq_refl) (ex_intro _ _ eq_refl)
             (ex_intro _ _ eq_refl) (ex_intro _ _ eq_refl) eq_refl).
  - intros r Hr.
    exact (proj1 (proj2 (string_amount_stops_at_sign_filter
                           sample_parse_datetime sample_parse_number Qsum
                           mock_data empty_world))
             _ r Hs Hr).
  - exact (proj1 (proj2 (proj2 (string_amount_stops_at_sign_filter
                                  sample_parse_datetime sample_parse_number
                                  Qsum mock_data empty_world))
                    _ _ Hok)).
Defined.

Lemma extract_data_outcome_witness :
  fs empty_world !! CSV_FILE = None
  ∧ fs malformed_world !! CSV_FILE = Some (Malformed "Error tokenizing data")
  ∧ fs mock_world !! CSV_FILE = Some (Parsed mock_data)
  ∧ is_Some (fs malformed_world !! CSV_FILE)
  ∧ (extract_data CSV_FILE malformed_world).2 = Return None
  ∧ extract_data CSV_FILE empty_world
    = (printed [MsgExtract CSV_FILE; MsgNotFound CSV_FILE] empty_world,
       Return None)
  ∧ extract_data CSV_FILE malformed_world
    = (printed [MsgExtract CSV_FILE;
                MsgExtractionError (OtherError "Error tokenizing data")]
         malformed_world,
       Return None)
  ∧ extract_data CSV_FILE mock_world
    = (printed [MsgExtract CSV_FILE; MsgRead (length mock_data)] mock_world,
       Return (Some mock_data))
  ∧ sample_main malformed_world
    = ((extract_data CSV_FILE malformed_world).1, Return tt).
Proof.
  assert (Hfile : is_Some (fs malformed_world !! CSV_FILE))
    by (eexists; reflexivity).
  assert (Hnone : (extract_data CSV_FILE malformed_world).2 = Return None)
    by reflexivity.
  do 5 (split; [first [reflexivity | assumption]|]).
  split; [|split; [|split]].
  - exact (proj1 (proj2 (extract_data_outcome sample_parse_datetime
                           sample_parse_number Qsum CSV_FILE empty_world))
             eq_refl).
  - exact (proj1 (proj2 (proj2 (extract_data_outcome sample_parse_datetime
                                  sample_parse_number Qsum CSV_FILE malformed_world)))
             _ eq_refl).
  - exact (proj1 (proj2 (proj2 (proj2
             (extract_data_outcome sample_parse_datetime sample_parse_number Qsum
                CSV_FILE mock_world))))
             _ eq_refl).
  - exact (proj2 (proj2 (proj2 (proj2
             (extract_data_outcome sample_parse_datetime sample_parse_number Qsum
                CSV_FILE malformed_world)))) Hfile Hnone).
Defined.

Lemma load_data_failure_witness :
  connect_fault connect_failure_world = Some "unable to open database file"
  ∧ connect_fault write_failure_world = None
  ∧ write_fault write_failure_world
    = Some "attempt to write a readonly database"
  ∧ connect_fault create_failure_world = None
  ∧ write_fault create_failure_world = Some "database is locked"
  ∧ connect_fault insert_failure_world = None
  ∧ write_fault insert_failure_world = Some "database or disk is full"
  ∧ connect_fault read_failure_world = None
  ∧ write_fault read_failure_world = None
  ∧ read_fault read_failure_world = Some "disk I/O error"
  ∧ db (load_data sample_summary DB_FILE TABLE_NAME connect_failure_world).1
    = db connect_failure_world
  ∧ db (load_data sample_summary DB_FILE TABLE_NAME write_failure_world).1
    = db write_failure_world
  ∧ db (load_data sample_summary DB_FILE TABLE_NAME create_failure_world).1
    = delete (DB_FILE, TABLE_NAME) (db create_failure_world)
  ∧ db (load_data sample_summary DB_FILE TABLE_NAME insert_failure_world).1
    = <[(DB_FILE, TABLE_NAME) := []]> (db insert_failure_world)
  ∧ db (load_data sample_summary DB_FILE TABLE_NAME read_failure_world).1
    = <[(DB_FILE, TABLE_NAME) := sample_summary]> (db read_failure_world).
Proof.
  do 10 (split; [reflexivity|]).
  split; [|split; [|split; [|split]]].
  - exact (proj2 (proj1 (proj2
             (load_data_failure sample_summary DB_FILE TABLE_NAME
                connect_failure_world))
             "unable to open database file" eq_refl)).
  - exact (proj2 (proj1 (proj2 (proj2
             (load_data_failure sample_summary DB_FILE TABLE_NAME
                write_failure_world)))
             "attempt to write a readonly database" eq_refl eq_refl)).
  - exact (proj2 (proj1 (proj2 (proj2
             (load_data_failure sample_summary DB_FILE TABLE_NAME
                create_failure_world)))
             "database is locked" eq_refl eq_refl)).
  - exact (proj2 (proj1 (proj2 (proj2
             (load_data_failure sample_summary DB_FILE TABLE_NAME
                insert_failure_world)))
             "database or disk is full" eq_refl eq_refl)).
  - exact (proj2 (proj2 (proj2 (proj2
             (load_data_failure sample_summary DB_FILE TABLE_NAME
                read_failure_world)))
             "disk I/O error" eq_refl eq_refl eq_refl)).
Defined.


(** ** The further properties at work *)

Lemma transform_data_TypeError_iff_witness :
  (∃ r s, r ∈ dropna text_amount_input ∧ amount r = AStr s)
  ∧ ∃ w' msg, sample_transform text_amount_input empty_world
              = (w', Raise (TypeError msg)).
Proof.
  assert (H : ∃ r s, r ∈ dropna text_amount_input ∧ amount r = AStr s).
  { exists (mock_row 1 "P101" "2024-09-01" (AStr "abc") "Gadget"), "abc".
    split; [vm_compute; left | reflexivity]. }
  split; [exact H|].
  exact (proj2 (transform_data_TypeError_iff sample_parse_datetime
                  sample_parse_number Qsum text_amount_input empty_world) H).
Defined.

Lemma transform_data_returns_iff_witness :
  (∃ w' out, sample_transform mock_data empty_world = (w', Return out))
  ∧ (∀ r s, r ∈ dropna mock_data → amount r ≠ AStr s)
  ∧ (∀ r s, r ∈ surviving mock_data → date r = Some s →
       is_Some (sample_parse_datetime (map date (surviving mock_data)) s)).
Proof.
  assert (H : ∃ w' out, sample_transform mock_data empty_world
                        = (w', Return out)).
  { eexists _, _. vm_compute. reflexivity. }
  split; [exact H|].
  exact (proj1 (transform_data_returns_iff sample_parse_datetime
                  sample_parse_number Qsum mock_data empty_world) H).
Defined.

Lemma transform_data_ValueError_iff_witness :
  ((∀ r s, r ∈ dropna iso_then_month_input → amount r ≠ AStr s)
   ∧ ∃ r s, r ∈ surviving iso_then_month_input ∧ date r = Some s
            ∧ sample_parse_datetime
                (map date (surviving iso_then_month_input)) s = None)
  ∧ ∃ w' msg, sample_transform iso_then_month_input empty_world
              = (w', Raise (ValueError msg)).
Proof.
  assert (H : (∀ r s, r ∈ dropna iso_then_month_input → amount r ≠ AStr s)
              ∧ ∃ r s, r ∈ surviving iso_then_month_input ∧ date r = Some s
                       ∧ sample_parse_datetime
                           (map date (surviving iso_then_month_input)) s
                         = None).
  { split.
    - intros r s Hr. vm_compute in Hr.
      apply elem_of_cons in Hr as [->|Hr]; [discriminate|].
      apply elem_of_cons in Hr as [->|Hr]; [discriminate|].
      by apply elem_of_nil in Hr.
    - exists (mock_row 2 "P2" "September 2024" (ANum 2) "Book"),
        "September 2024".
      split; [vm_compute; right; left|]. split; reflexivity. }
  split; [exact H|].
  exact (proj2 (transform_data_ValueError_iff sample_parse_datetime
                  sample_parse_number Qsum iso_then_month_input empty_world)
           H).
Defined.

Lemma transform_data_log_witness :
  sample_transform mock_data empty_world
  = ((sample_transform mock_data empty_world).1,
     Return (returned [] (sample_transform mock_data empty_world).2))
  ∧ stdout (sample_transform mock_data empty_world).1
    = [MsgTransform; MsgDroppedMissing 1; MsgDroppedNonPositive 1;
       MsgTransformed 4].
Proof.
  assert (Hrun : sample_transform mock_data empty_world
                 = ((sample_transform mock_data empty_world).1,
                    Return (returned [] (sample_transform mock_data empty_world).2)))
    by (vm_compute; reflexivity).
  split; [exact Hrun|].
  exact (transform_data_log _ _ _ _ _ _ _ Hrun).
Defined.

Lemma transform_data_stamp_witness :
  sample_transform mock_data empty_world
  = ((sample_transform mock_data empty_world).1,
     Return (returned [] (sample_transform mock_data empty_world).2))
  ∧ Forall (λ row, processed_at row = 1000%Z)
      (returned [] (sample_transform mock_data empty_world).2)
  ∧ clock (sample_transform mock_data empty_world).1 = 1001%Z.
Proof.
  assert (Hrun : sample_transform mock_data empty_world
                 = ((sample_transform mock_data empty_world).1,
                    Return (returned [] (sample_transform mock_data empty_world).2)))
    by (vm_compute; reflexivity).
  split; [exact Hrun|].
  exact (transform_data_stamp _ _ _ _ _ _ _ Hrun).
Defined.

Lemma transform_data_row_count_witness :
  sample_transform mock_data empty_world
  = ((sample_transform mock_data empty_world).1,
     Return (returned [] (sample_transform mock_data empty_world).2))
  ∧ length (returned [] (sample_transform mock_data empty_world).2)
    = length (remove_dups (omap product_id (surviving mock_data)))
  ∧ (length (returned [] (sample_transform mock_data empty_world).2)
     ≤ length mock_data)%nat.
Proof.
  assert (Hrun : sample_transform mock_data empty_world
                 = ((sample_transform mock_data empty_world).1,
                    Return (returned [] (sample_transform mock_data empty_world).2)))
    by (vm_compute; reflexivity).
  split; [exact Hrun|].
  exact (transform_data_row_count _ _ _ _ _ _ _ Hrun).
Defined.







Lemma main_other_tables_witness :
  ("archive.sqlite", TABLE_NAME) ≠ (DB_FILE, TABLE_NAME)
  ∧ is_Some (fs mock_world !! CSV_FILE)
  ∧ db (sample_main mock_world).1 !! ("archive.sqlite", TABLE_NAME)
    = db mock_world !! ("archive.sqlite", TABLE_NAME)
  ∧ (sample_main mock_world).2 = Return tt.
Proof.
  assert (Hne : ("archive.sqlite", TABLE_NAME) ≠ (DB_FILE, TABLE_NAME))
    by discriminate.
  assert (Hfile : is_Some (fs mock_world !! CSV_FILE))
    by (eexists; reflexivity).
  split; [exact Hne|]. split; [exact Hfile|]. split.
  - exact (proj1 (main_other_tables sample_parse_datetime sample_parse_number Qsum
                    mock_world) _ _ Hne).
  - exact (proj2 (main_other_tables sample_parse_datetime sample_parse_number Qsum
                    mock_world) Hfile).
Defined.

Lemma main_transform_failure_witness :
  fs text_amount_world !! CSV_FILE = Some (Parsed text_amount_input)
  ∧ (sample_transform text_amount_input empty_world).2
    = Raise (TypeError "'>' not supported between instances of 'str' and 'int'")
  ∧ last (stdout (sample_main text_amount_world).1)
    = Some (MsgFatal
              (TypeError "'>' not supported between instances of 'str' and 'int'"))
  ∧ db (sample_main text_amount_world).1 = db text_amount_world.
Proof.
  assert (Hfile : fs text_amount_world !! CSV_FILE
                  = Some (Parsed text_amount_input)) by reflexivity.
  assert (Hraise : (sample_transform text_amount_input empty_world).2
                   = Raise (TypeError
                       "'>' not supported between instances of 'str' and 'int'"))
    by reflexivity.
  split; [exact Hfile|]. split; [exact Hraise|].
  pose proof (main_transform_failure sample_parse_datetime sample_parse_number Qsum
                _ _ text_amount_world _ Hfile Hraise) as (_ & Hlast & Hdb & _).
  split; [exact Hlast | exact Hdb].
Defined.

Lemma main_success_witness :
  fs mock_world !! CSV_FILE = Some (Parsed mock_data)
  ∧ (sample_transform mock_data (extract_data CSV_FILE mock_world).1).2
    = Return (returned []
                (sample_transform mock_data
                   (extract_data CSV_FILE mock_world).1).2)
  ∧ last (stdout (sample_main mock_world).1) = Some MsgComplete
  ∧ db (sample_main mock_world).1
    = <[(DB_FILE, TABLE_NAME)
        := returned [] (sample_transform mock_data
                          (extract_data CSV_FILE mock_world).1).2]>
        (db mock_world)
  ∧ open_conns (sample_main mock_world).1 = 0.
Proof.
  assert (Hfile : fs mock_world !! CSV_FILE = Some (Parsed mock_data))
    by reflexivity.
  assert (Hout : (sample_transform mock_data
                    (extract_data CSV_FILE mock_world).1).2
                 = Return (returned []
                             (sample_transform mock_data
                                (extract_data CSV_FILE mock_world).1).2))
    by (vm_compute; reflexivity).
  split; [exact Hfile|]. split; [exact Hout|].
  pose proof (main_success sample_parse_datetime sample_parse_number Qsum
                _ mock_world _ Hfile eq_refl eq_refl eq_refl Hout)
    as (_ & Hlast & Hdb & Hconn).
  split; [exact Hlast|]. split; [exact Hdb | exact Hconn].
Defined.

Lemma main_load_failure_witness :
  fs mock_world !! CSV_FILE = Some (Parsed mock_data)
  ∧ (sample_transform mock_data (extract_data CSV_FILE mock_world).1).2
    = Return (returned []
                (sample_transform mock_data
                   (extract_data CSV_FILE mock_world).1).2)
  ∧ write_fault
      (mkWorld (fs mock_world) ∅ 0 [] 1000 None (Some "database is locked") None
         AtDrop None [])
    = Some "database is locked"
  ∧ ∃ before,
      stdout (sample_main
                (mkWorld (fs mock_world) ∅ 0 [] 1000 None
                   (Some "database is locked") None AtDrop None [])).1
      = (before ++ [MsgLoadError (OtherError "database is locked");
                    MsgComplete])%list.
Proof.
  assert (Hfile : fs mock_world !! CSV_FILE = Some (Parsed mock_data))
    by reflexivity.
  assert (Hout : (sample_transform mock_data
                    (extract_data CSV_FILE mock_world).1).2
                 = Return (returned []
                             (sample_transform mock_data
                                (extract_data CSV_FILE mock_world).1).2))
    by (vm_compute; reflexivity).
  split; [exact Hfile|]. split; [exact Hout|]. split; [reflexivity|].
  exact (proj2 (main_load_failure sample_parse_datetime sample_parse_number Qsum
                  mock_data
                  (mkWorld (fs mock_world) ∅ 0 [] 1000 None
                     (Some "database is locked") None AtDrop None [])
                  _ "database is locked" Hfile Hout
                  (or_intror (or_introl (conj eq_refl eq_refl))))).
Defined.

